(** * Unsupervised lexical sentiment models: the notebook's glue code

    The notebook "11 - Sentiment Analysis - Unsupervised Lexical Models"
    loads a CSV of movie reviews, keeps the rows from index 35000 on as a
    test split, scores every test review with TextBlob, AFINN and VADER,
    turns each score into a label with a fixed cutoff and prints metrics.

    Everything the notebook itself writes is embedded below: the slicing,
    the three list comprehensions, the cutoffs, the three text helpers and
    [analyze_sentiment_vader_lexicon].  The third-party libraries it calls
    (pandas, textblob, afinn, bs4, re, unicodedata, contractions, nltk) are
    not part of the repository; they are the fields of the class [Library],
    each a function of its arguments that returns a value or raises.

    Python floats are IEEE binary64 numbers; they are [spec_float] values
    and [>=] is the IEEE comparison [SFleb] with its arguments swapped. *)

From Stdlib Require Import ZArith Ascii String Floats.SpecFloat.
From stdpp Require Import base option list strings gmap.

Open Scope string_scope.
Open Scope list_scope.

(** ** Python floats *)

Module PyFloat.

Abbreviation float := spec_float.

(** binary64: 53 bits of precision, exponents below 1024. *)
Definition prec : Z := 53.
Definition emax : Z := 1024.

(** The literals of the notebook, as the binary64 numbers Python reads:
    0.1 is 0x1.999999999999ap-4, 0.4 is 0x1.999999999999ap-2, and 1.0 and
    100 are exact. *)
Definition f_0_1 : float := S754_finite false 7205759403792794 (-56).
Definition f_0_4 : float := S754_finite false 7205759403792794 (-54).
Definition f_1_0 : float := S754_finite false 4503599627370496 (-52).
Definition f_100 : float := S754_finite false 7036874417766400 (-46).

(** [x >= y] on Python floats: false as soon as one side is a NaN. *)
Definition geb (x y : float) : bool := SFleb y x.
Definition ltb (x y : float) : bool := SFltb x y.

(** [x * y] in binary64. *)
Definition mul (x y : float) : float := SFmul prec emax x y.

Definition is_binary64 (x : float) : bool := valid_binary prec emax x.

End PyFloat.

Import PyFloat.

(** ** Results, events and the notebook monad *)

Inductive result (E A : Type) : Type :=
| Ok (a : A)
| Raise (e : E).
Arguments Ok {E A} a.
Arguments Raise {E A} e.

(** The library functions and builtins the notebook calls. *)
Inductive libfn : Set :=
| pd_read_csv_fn | DataFrame_info_fn | DataFrame_getitem_fn | ndarray_getitem_fn
| pd_MultiIndex_fn | pd_DataFrame_fn | DataFrame_str_fn
| TextBlob_polarity_fn
| Afinn_fn | Afinn_score_fn
| BeautifulSoup_fn | soup_call_fn | tag_extract_fn | soup_get_text_fn
| re_sub_fn
| unicodedata_normalize_fn | str_encode_fn | bytes_decode_fn
| contractions_fix_fn
| SentimentIntensityAnalyzer_fn | polarity_scores_fn | dict_getitem_fn
| display_model_performance_metrics_fn.

#[global] Instance libfn_eq_dec : EqDecision libfn.
Proof. solve_decision. Defined.

(** What a run leaves behind, oldest first: the lines it printed and the
    calls it made, each with the [str] arguments it was given and the
    exception it raised, if it raised one. *)
Inductive event (E : Type) : Type :=
| Printed (args : list string)
| Called (fn : libfn) (args : list string) (raised : option E).
Arguments Printed {E} args.
Arguments Called {E} fn args raised.

(** A cell of a data frame row: a [str] or a [float]. *)
Inductive pyval : Type :=
| VStr (s : string)
| VFloat (x : float).

(** The libraries, as functions of their arguments.  The lexicons behind
    the three scorers are read-only tables, so a scorer is a function of
    the text (and of the object it is called on). *)
Class Library := {
  exn : Type;
  frame : Type;
  multiindex : Type;
  afinn : Type;
  soup : Type;
  tag : Type;
  analyzer : Type;
  (* builtins *)
  KeyError : string -> exn;
  IndexError : Z -> exn;
  py_round : float -> Z -> float;
  py_str : float -> string;
  (* pandas *)
  pd_read_csv : string -> string -> result exn frame;
  DataFrame_info : frame -> result exn (list string);
  DataFrame_getitem_values : frame -> string -> result exn (list string);
  pd_MultiIndex : list (list string) -> list (list Z) -> result exn multiindex;
  pd_DataFrame : list (list pyval) -> multiindex -> result exn frame;
  DataFrame_str : frame -> result exn string;
  (* textblob: [textblob.TextBlob(text).sentiment.polarity] *)
  TextBlob_polarity : string -> result exn float;
  (* afinn *)
  Afinn : bool -> result exn afinn;
  Afinn_score : afinn -> string -> result exn float;
  (* bs4; [tag_extract s soup] is the soup once [s.extract()] has run *)
  BeautifulSoup : string -> string -> result exn soup;
  soup_call : soup -> list string -> result exn (list tag);
  tag_extract : tag -> soup -> result exn soup;
  soup_get_text : soup -> result exn string;
  (* re, unicodedata, str and bytes methods, contractions *)
  re_sub : string -> string -> string -> result exn string;
  unicodedata_normalize : string -> string -> result exn string;
  str_encode : string -> string -> string -> result exn string;
  bytes_decode : string -> string -> string -> result exn string;
  contractions_fix : string -> result exn string;
  (* nltk.sentiment.vader *)
  SentimentIntensityAnalyzer : result exn analyzer;
  polarity_scores : analyzer -> string -> result exn (gmap string float);
  (* model_evaluation_utils: the lines of the report it prints *)
  display_model_performance_metrics :
    list string -> list string -> list string -> result exn (list string)
}.

Abbreviation trace := (list (event exn)).

Section Monad.
Context `{L : Library}.

(** A computation yields a value or an exception, and the events it
    produced on the way.  Nothing inspects a [Raise]: the notebook has
    no [try]. *)
Definition M (A : Type) : Type := (result exn A * trace)%type.

Definition ret {A} (a : A) : M A := (Ok a, []).

Definition bind {A B} (m : M A) (k : A -> M B) : M B :=
  match m with
  | (Ok a, es) => let '(r, es') := k a in (r, es ++ es')
  | (Raise e, es) => (Raise e, es)
  end.

Definition raised_by {A} (r : result exn A) : option exn :=
  match r with Ok _ => None | Raise e => Some e end.

(** A call: recorded, then its value or its exception. *)
Definition call {A} (fn : libfn) (args : list string) (r : result exn A) : M A :=
  (r, [Called fn args (raised_by r)]).

Definition print (args : list string) : M unit := (Ok tt, [Printed args]).

(** [[f x for x in xs]] *)
Fixpoint list_comp {A B} (f : A -> M B) (xs : list A) : M (list B) :=
  match xs with
  | [] => ret []
  | x :: xs' => bind (f x) (fun y => bind (list_comp f xs') (fun ys => ret (y :: ys)))
  end.

(** [for x in xs: body] *)
Fixpoint for_each {A} (body : A -> M unit) (xs : list A) : M unit :=
  match xs with
  | [] => ret tt
  | x :: xs' => bind (body x) (fun _ => for_each body xs')
  end.

Definition outcome {A} (m : M A) : result exn A := m.1.
Definition events {A} (m : M A) : trace := m.2.

End Monad.

Arguments outcome : simpl never.
Arguments events : simpl never.
Arguments ret : simpl never.
Arguments bind : simpl never.
Arguments call : simpl never.
Arguments print : simpl never.

Notation "'let*' x := m 'in' k" := (bind m (fun x => k))
  (at level 10, x name, m at level 100, k at level 200).
Notation "'do*' m 'in' k" := (bind m (fun _ => k))
  (at level 10, m at level 100, k at level 200).

(** ** The notebook *)

Section Notebook.
Context `{L : Library}.

(** *** Builtins the cells use *)

(** [d[key]] on a dict. *)
Definition dict_getitem (d : gmap string float) (key : string) : M float :=
  call dict_getitem_fn [key]
       (match d !! key with Some v => Ok v | None => Raise (KeyError key) end).

(** [arr[ids]] on a one-dimensional array, with a list of indices that
    are not negative: the first index out of range raises. *)
Fixpoint take_indices {A} (arr : list A) (ids : list Z) : result exn (list A) :=
  match ids with
  | [] => Ok []
  | i :: ids' =>
      match arr !! Z.to_nat i with
      | None => Raise (IndexError i)
      | Some x =>
          match take_indices arr ids' with
          | Ok xs => Ok (x :: xs)
          | Raise e => Raise e
          end
      end
  end.

Definition ndarray_getitem {A} (arr : list A) (ids : list Z) : M (list A) :=
  call ndarray_getitem_fn [] (take_indices arr ids).

(** [s * n] on a [str]. *)
Fixpoint str_mul (s : string) (n : nat) : string :=
  match n with
  | O => ""
  | S n' => String.append s (str_mul s n')
  end.

(** *** Cells 1 and 2: load the data, keep the test split *)

Definition load_dataset : M frame :=
  let* dataset := call pd_read_csv_fn ["movie_reviews.csv.bz2"; "bz2"]
                       (pd_read_csv "movie_reviews.csv.bz2" "bz2") in
  let* lines := call DataFrame_info_fn [] (DataFrame_info dataset) in
  do* print lines in
  ret dataset.

Definition test_split_start : Z := 35000.

Definition sample_review_ids : list Z := [7626; 3533; 13010]%Z.

(** [dataset[col].values[35000:]] *)
Definition test_column (dataset : frame) (col : string) : M (list string) :=
  let* values := call DataFrame_getitem_fn [col] (DataFrame_getitem_values dataset col) in
  ret (drop (Z.to_nat test_split_start) values).

Definition extract_test_data (dataset : frame) : M (list string * list string) :=
  let* test_reviews := test_column dataset "review" in
  let* test_sentiments := test_column dataset "sentiment" in
  ret (test_reviews, test_sentiments).

(** *** The threshold classifier: ['positive' if score >= cutoff else 'negative'] *)

Definition threshold_label (cutoff score : float) : string :=
  if geb score cutoff then "positive" else "negative".

(** The loop over the three sample reviews, shared by the three
    sections up to the line that predicts. *)
Definition sample_reviews (test_reviews test_sentiments : list string)
    (predict : string -> M unit) : M unit :=
  let* reviews := ndarray_getitem test_reviews sample_review_ids in
  let* sentiments := ndarray_getitem test_sentiments sample_review_ids in
  for_each (fun '(review, sentiment) =>
              do* print ["REVIEW:"; review] in
              do* print ["Actual Sentiment:"; sentiment] in
              do* predict review in
              print [str_mul "-" 60])
           (zip reviews sentiments).

Definition report (test_sentiments predicted_sentiments : list string) : M unit :=
  let* lines := call display_model_performance_metrics_fn []
                     (display_model_performance_metrics
                        test_sentiments predicted_sentiments ["positive"; "negative"]) in
  print lines.

(** *** TextBlob *)

Definition textblob_polarity (review : string) : M float :=
  call TextBlob_polarity_fn [review] (TextBlob_polarity review).

Definition textblob_samples (test_reviews test_sentiments : list string) : M unit :=
  sample_reviews test_reviews test_sentiments
    (fun review =>
       let* polarity := textblob_polarity review in
       print ["Predicted Sentiment polarity:"; py_str polarity]).

Definition textblob_sentiment_polarity (test_reviews : list string) : M (list float) :=
  list_comp (fun review => textblob_polarity review) test_reviews.

Definition textblob_predicted_sentiments (sentiment_polarity : list float) : list string :=
  (fun score => if geb score f_0_1 then "positive" else "negative") <$> sentiment_polarity.

(** *** AFINN *)

Definition afinn_new : M afinn := call Afinn_fn [] (Afinn true).

Definition afinn_score (afn : afinn) (review : string) : M float :=
  call Afinn_score_fn [review] (Afinn_score afn review).

Definition afinn_samples (afn : afinn) (test_reviews test_sentiments : list string) : M unit :=
  sample_reviews test_reviews test_sentiments
    (fun review =>
       let* polarity := afinn_score afn review in
       print ["Predicted Sentiment polarity:"; py_str polarity]).

Definition afinn_sentiment_polarity (afn : afinn) (test_reviews : list string) : M (list float) :=
  list_comp (fun review => afinn_score afn review) test_reviews.

Definition afinn_predicted_sentiments (sentiment_polarity : list float) : list string :=
  (fun score => if geb score f_1_0 then "positive" else "negative") <$> sentiment_polarity.

(** *** VADER: the text helpers *)

Definition newline : string := String (Ascii.ascii_of_nat 10) "".

(** [[s.extract() for s in tags]]: every tag is cut out of the soup. *)
Fixpoint extract_all (tags : list tag) (soup0 : soup) : M soup :=
  match tags with
  | [] => ret soup0
  | s :: tags' =>
      let* soup1 := call tag_extract_fn [] (tag_extract s soup0) in
      extract_all tags' soup1
  end.

Definition strip_html_tags (text : string) : M string :=
  let* soup0 := call BeautifulSoup_fn [text; "html.parser"]
                     (BeautifulSoup text "html.parser") in
  let* tags := call soup_call_fn ["iframe"; "script"]
                    (soup_call soup0 ["iframe"; "script"]) in
  let* soup1 := extract_all tags soup0 in
  let* stripped_text := call soup_get_text_fn [] (soup_get_text soup1) in
  let* stripped_text := call re_sub_fn ["[\r|\n|\r\n]+"; newline; stripped_text]
                             (re_sub "[\r|\n|\r\n]+" newline stripped_text) in
  ret stripped_text.

Definition remove_accented_chars (text : string) : M string :=
  let* text := call unicodedata_normalize_fn ["NFKD"; text]
                    (unicodedata_normalize "NFKD" text) in
  let* text := call str_encode_fn [text; "ascii"; "ignore"]
                    (str_encode text "ascii" "ignore") in
  let* text := call bytes_decode_fn [text; "utf-8"; "ignore"]
                    (bytes_decode text "utf-8" "ignore") in
  ret text.

Definition expand_contractions (text : string) : M string :=
  call contractions_fix_fn [text] (contractions_fix text).

(** *** VADER: the wrapper *)

Definition threshold_default : float := f_0_1.
Definition verbose_default : bool := false.

(** [str(round(x, 2)*100)+'%'] *)
Definition percent (x : float) : string :=
  String.append (py_str (mul (py_round x 2) f_100)) "%".

(** An argument left out is [None]; the defaults are those of the [def]. *)
Definition analyze_sentiment_vader_lexicon (review : string)
    (threshold : option float) (verbose : option bool) : M string :=
  let threshold := default threshold_default threshold in
  let verbose := default verbose_default verbose in
  (* pre-process text *)
  let* review := strip_html_tags review in
  let* review := remove_accented_chars review in
  let* review := expand_contractions review in
  (* analyze the sentiment for review *)
  let* analyzer := call SentimentIntensityAnalyzer_fn [] SentimentIntensityAnalyzer in
  let* scores := call polarity_scores_fn [review] (polarity_scores analyzer review) in
  (* get aggregate scores and final sentiment *)
  let* agg_score := dict_getitem scores "compound" in
  let final_sentiment := if geb agg_score threshold then "positive" else "negative" in
  do* (if verbose then
         (* display detailed sentiment statistics *)
         let* pos := dict_getitem scores "pos" in
         let positive := percent pos in
         let final := py_round agg_score 2 in
         let* neg := dict_getitem scores "neg" in
         let negative := percent neg in
         let* neu := dict_getitem scores "neu" in
         let neutral := percent neu in
         let* columns := call pd_MultiIndex_fn []
               (pd_MultiIndex
                  [["SENTIMENT STATS:"];
                   ["Predicted Sentiment"; "Polarity Score"; "Positive"; "Negative"; "Neutral"]]
                  [[0; 0; 0; 0; 0]; [0; 1; 2; 3; 4]]%Z) in
         let* sentiment_frame := call pd_DataFrame_fn []
               (pd_DataFrame
                  [[VStr final_sentiment; VFloat final; VStr positive;
                    VStr negative; VStr neutral]] columns) in
         let* text := call DataFrame_str_fn [] (DataFrame_str sentiment_frame) in
         print [text]
       else ret tt) in
  ret final_sentiment.

Definition vader_samples (test_reviews test_sentiments : list string) : M unit :=
  sample_reviews test_reviews test_sentiments
    (fun review =>
       let* pred := analyze_sentiment_vader_lexicon review (Some f_0_4) (Some true) in
       ret tt).

Definition vader_predicted_sentiments (test_reviews : list string) : M (list string) :=
  list_comp (fun review => analyze_sentiment_vader_lexicon review (Some f_0_4) (Some false))
            test_reviews.

(** *** The three pipelines and the whole run *)

Definition textblob_pipeline (test_reviews : list string) : M (list string) :=
  let* sentiment_polarity := textblob_sentiment_polarity test_reviews in
  ret (textblob_predicted_sentiments sentiment_polarity).

Definition afinn_pipeline (afn : afinn) (test_reviews : list string) : M (list string) :=
  let* sentiment_polarity := afinn_sentiment_polarity afn test_reviews in
  ret (afinn_predicted_sentiments sentiment_polarity).

Definition evaluate (test_reviews test_sentiments : list string) : M unit :=
  (* TextBlob *)
  do* textblob_samples test_reviews test_sentiments in
  let* predicted_sentiments := textblob_pipeline test_reviews in
  do* report test_sentiments predicted_sentiments in
  (* AFINN *)
  let* afn := afinn_new in
  do* afinn_samples afn test_reviews test_sentiments in
  let* predicted_sentiments := afinn_pipeline afn test_reviews in
  do* report test_sentiments predicted_sentiments in
  (* VADER *)
  do* vader_samples test_reviews test_sentiments in
  let* predicted_sentiments := vader_predicted_sentiments test_reviews in
  report test_sentiments predicted_sentiments.

Definition notebook : M unit :=
  let* dataset := load_dataset in
  let* split := extract_test_data dataset in
  evaluate split.1 split.2.

End Notebook.

(** ** What the claims speak of

    Predicates on labels, on the wrapper and on traces, in the words of
    the specification; the facts below relate them to the cells. *)

Section Observations.
Context `{L : Library}.

(** A score is labelled by a cutoff when its label is ['positive']
    exactly if the score is at least the cutoff, ['negative'] otherwise. *)
Definition labelled_by_cutoff (cutoff score : float) (label : string) : Prop :=
  (label = "positive" <-> geb score cutoff = true) /\
  (label = "negative" <-> geb score cutoff = false).

Definition binary_label (label : string) : Prop :=
  label = "positive" \/ label = "negative".

(** The text the three helpers, applied in the order of the wrapper,
    make of a review. *)
Definition preprocessed (review text : string) : Prop :=
  exists t1 t2,
    outcome (strip_html_tags review) = Ok t1 /\
    outcome (remove_accented_chars t1) = Ok t2 /\
    outcome (expand_contractions t2) = Ok text.

(** The compound score VADER gives the preprocessed review. *)
Definition compound_score (review : string) (score : float) : Prop :=
  exists text an scores,
    preprocessed review text /\
    SentimentIntensityAnalyzer = Ok an /\
    polarity_scores an text = Ok scores /\
    scores !! "compound" = Some score.

(** An event other than a call that raised. *)
Definition quiet (ev : event exn) : Prop :=
  match ev with
  | Called _ _ (Some _) => False
  | _ => True
  end.

(** A computation propagates exceptions when a call that raises is the
    last thing it does and its exception is the outcome; a computation
    that returns has seen no call raise. *)
Definition propagates {A} (m : M A) : Prop :=
  match outcome m with
  | Ok _ => Forall quiet (events m)
  | Raise e =>
      exists es fn args,
        events m = es ++ [Called fn args (Some e)] /\ Forall quiet es
  end.

(** The argument lists of the calls to [fn], oldest first. *)
Definition calls_to (fn : libfn) (t : trace) : list (list string) :=
  omap (fun ev => match ev with
                  | Called fn' args _ =>
                      if bool_decide (fn' = fn) then Some args else None
                  | Printed _ => None
                  end) t.

(** The three places where a review enters a library: TextBlob, the
    AFINN scorer, and the HTML parser at the head of VADER's wrapper. *)
Definition entry_points : list libfn :=
  [TextBlob_polarity_fn; Afinn_score_fn; BeautifulSoup_fn].

Definition handed_over (ev : event exn) : option string :=
  match ev with
  | Called fn (text :: _) _ =>
      if bool_decide (fn ∈ entry_points) then Some text else None
  | _ => None
  end.

(** Every text an event hands to an entry point is one of [texts]. *)
Definition hands_over_only (texts : list string) (ev : event exn) : Prop :=
  forall text, handed_over ev = Some text -> text ∈ texts.

Definition not_call_to (fn : libfn) (ev : event exn) : Prop :=
  match ev with
  | Called fn' _ _ => fn' <> fn
  | Printed _ => True
  end.

End Observations.

(** ** A stand-in library, to evaluate the definitions on concrete inputs

    Three scorers over a two-word lexicon, an HTML parser that drops what
    stands between angle brackets, and a CSV reader that is handed its
    result.  Exceptions are strings; a scorer refuses the empty text. *)

Module Toy.

Definition f_0_25 : float := S754_finite false 4503599627370496 (-54).
Definition f_neg_0_25 : float := S754_finite true 4503599627370496 (-54).
Definition f_2_0 : float := S754_finite false 4503599627370496 (-51).
Definition f_neg_2_0 : float := S754_finite true 4503599627370496 (-51).
Definition f_0_0 : float := S754_zero false.

Definition contains (word text : string) : bool :=
  bool_decide (is_Some (String.index 0 word text)).

Definition lexicon (good bad : float) (text : string) : result string float :=
  if String.eqb text "" then Raise "ValueError: empty text"
  else if contains "good" text then Ok good
  else if contains "bad" text then Ok bad
  else Ok f_0_0.

Fixpoint drop_tags (inside : bool) (s : string) : string :=
  match s with
  | EmptyString => EmptyString
  | String c s' =>
      if Ascii.eqb c "<"%char then drop_tags true s'
      else if Ascii.eqb c ">"%char then drop_tags false s'
      else if inside then drop_tags true s'
      else String c (drop_tags false s')
  end.

Definition column (df : list (string * list string)) (col : string)
    : result string (list string) :=
  match list_find (fun kv => kv.1 = col) df with
  | Some (_, (_, values)) => Ok values
  | None => Raise (String.append "KeyError: " col)
  end.

Definition vader_scores (text : string) : result string (gmap string float) :=
  match lexicon f_0_25 f_neg_0_25 text with
  | Ok compound =>
      Ok (<["compound" := compound]>
          (<["pos" := f_0_25]> (<["neg" := f_0_0]> (<["neu" := f_0_25]> ∅))))
  | Raise e => Raise e
  end.

Definition library (csv : result string (list (string * list string))) : Library := {|
  exn := string;
  frame := list (string * list string);
  multiindex := unit;
  afinn := unit;
  soup := string;
  tag := unit;
  analyzer := unit;
  KeyError := fun key => String.append "KeyError: " key;
  IndexError := fun _ => "IndexError: index out of bounds";
  py_round := fun x _ => x;
  py_str := fun _ => "<float>";
  pd_read_csv := fun _ _ => csv;
  DataFrame_info := fun _ => Ok ["<class 'pandas.core.frame.DataFrame'>"];
  DataFrame_getitem_values := column;
  pd_MultiIndex := fun _ _ => Ok tt;
  pd_DataFrame := fun _ _ => Ok [];
  DataFrame_str := fun _ => Ok "<frame>";
  TextBlob_polarity := lexicon f_0_25 f_neg_0_25;
  Afinn := fun _ => Ok tt;
  Afinn_score := fun _ => lexicon f_2_0 f_neg_2_0;
  BeautifulSoup := fun text _ => Ok text;
  soup_call := fun _ _ => Ok [];
  tag_extract := fun _ s => Ok s;
  soup_get_text := fun s => Ok (drop_tags false s);
  re_sub := fun _ _ text => Ok text;
  unicodedata_normalize := fun _ text => Ok text;
  str_encode := fun text _ _ => Ok text;
  bytes_decode := fun text _ _ => Ok text;
  contractions_fix := fun text => Ok text;
  SentimentIntensityAnalyzer := Ok tt;
  polarity_scores := fun _ => vader_scores;
  display_model_performance_metrics := fun _ _ _ => Ok ["Model Performance metrics:"]
|}.

(** 35000 rows of filler, then a two-row test split. *)
Definition movie_reviews : list (string * list string) :=
  [("review", replicate (Z.to_nat 35000) "filler" ++ ["a good movie<br />"; "a bad movie"]);
   ("sentiment", replicate (Z.to_nat 35000) "negative" ++ ["positive"; "negative"])].

Definition missing_csv : Library := library (Raise "FileNotFoundError: movie_reviews.csv.bz2").
Definition loaded_csv : Library := library (Ok movie_reviews).

End Toy.

(** ** Further observations

    The body of the sample loop, what a trace printed, and the meaning of
    the pattern that [strip_html_tags] hands to [re.sub]. *)

Section MoreObservations.
Context `{L : Library}.

(** The body of [for review, sentiment in zip(...)]. *)
Definition sample_body (predict : string -> M unit) (row : string * string) : M unit :=
  let '(review, sentiment) := row in
  do* print ["REVIEW:"; review] in
  do* print ["Actual Sentiment:"; sentiment] in
  do* predict review in
  print [str_mul "-" 60].

(** The lines a trace printed, oldest first. *)
Definition printed (t : trace) : list (list string) :=
  omap (fun ev => match ev with
                  | Printed args => Some args
                  | Called _ _ _ => None
                  end) t.

(** The pandas calls of the verbose branch. *)
Definition frame_building : list libfn :=
  [pd_MultiIndex_fn; pd_DataFrame_fn; DataFrame_str_fn].

(** An event of a run that shows nothing: no print, no frame. *)
Definition shows_nothing (ev : event exn) : Prop :=
  match ev with
  | Printed _ => False
  | Called fn _ _ => fn ∉ frame_building
  end.

(** The library functions behind the wrapper when it is not verbose. *)
Definition wrapper_calls : list libfn :=
  [BeautifulSoup_fn; soup_call_fn; tag_extract_fn; soup_get_text_fn; re_sub_fn;
   unicodedata_normalize_fn; str_encode_fn; bytes_decode_fn; contractions_fix_fn;
   SentimentIntensityAnalyzer_fn; polarity_scores_fn; dict_getitem_fn].

(** The library functions behind the three text helpers. *)
Definition helper_calls : list libfn :=
  [BeautifulSoup_fn; soup_call_fn; tag_extract_fn; soup_get_text_fn; re_sub_fn;
   unicodedata_normalize_fn; str_encode_fn; bytes_decode_fn; contractions_fix_fn].

(** A call to one of [fns]. *)
Definition call_among (fns : list libfn) (ev : event exn) : Prop :=
  match ev with
  | Printed _ => False
  | Called fn _ _ => fn ∈ fns
  end.

(** An event that hands no text to a scorer. *)
Definition hands_over_nothing (ev : event exn) : Prop := handed_over ev = None.

(** *** Preprocessing, in the library's terms *)






End MoreObservations.

(** *** The pattern [[\r|\n|\r\n]+]

    Inside the brackets [\r] and [\n] are the carriage return and the line
    feed and [|] stands for itself, so the class has three characters; the
    [+] makes a match a maximal run of them, and [re.sub] puts the
    replacement in the place of every run. *)

Module LineBreaks.

Definition CR : ascii := ascii_of_nat 13.
Definition LF : ascii := ascii_of_nat 10.
Definition pipe : ascii := "|"%char.

Definition in_class (c : ascii) : bool :=
  Ascii.eqb c CR || Ascii.eqb c pipe || Ascii.eqb c LF.

(** [re.sub(r'[\r|\n|\r\n]+', '\n', text)]; [in_run] tells that the
    character before belonged to a run that is already replaced. *)
Fixpoint collapse_runs (in_run : bool) (text : string) : string :=
  match text with
  | EmptyString => EmptyString
  | String c text' =>
      if in_class c then
        if in_run then collapse_runs true text'
        else String LF (collapse_runs true text')
      else String c (collapse_runs false text')
  end.

Definition re_sub_line_breaks (text : string) : string := collapse_runs false text.

(** Two line feeds in a row somewhere in the text. *)
Fixpoint adjacent_line_feeds (text : string) : bool :=
  match text with
  | String a (String b _ as text') =>
      (Ascii.eqb a LF && Ascii.eqb b LF) || adjacent_line_feeds text'
  | _ => false
  end.

Definition chars (text : string) : list ascii := list_ascii_of_string text.

(** The stand-in library with a [re.sub] that knows the pattern and an
    HTML parser that returns the text as it is. *)
Definition regex_library : Library := {|
  exn := @exn Toy.loaded_csv;
  frame := @frame Toy.loaded_csv;
  multiindex := @multiindex Toy.loaded_csv;
  afinn := @afinn Toy.loaded_csv;
  soup := @soup Toy.loaded_csv;
  tag := @tag Toy.loaded_csv;
  analyzer := @analyzer Toy.loaded_csv;
  KeyError := @KeyError Toy.loaded_csv;
  IndexError := @IndexError Toy.loaded_csv;
  py_round := @py_round Toy.loaded_csv;
  py_str := @py_str Toy.loaded_csv;
  pd_read_csv := @pd_read_csv Toy.loaded_csv;
  DataFrame_info := @DataFrame_info Toy.loaded_csv;
  DataFrame_getitem_values := @DataFrame_getitem_values Toy.loaded_csv;
  pd_MultiIndex := @pd_MultiIndex Toy.loaded_csv;
  pd_DataFrame := @pd_DataFrame Toy.loaded_csv;
  DataFrame_str := @DataFrame_str Toy.loaded_csv;
  TextBlob_polarity := @TextBlob_polarity Toy.loaded_csv;
  Afinn := @Afinn Toy.loaded_csv;
  Afinn_score := @Afinn_score Toy.loaded_csv;
  BeautifulSoup := @BeautifulSoup Toy.loaded_csv;
  soup_call := @soup_call Toy.loaded_csv;
  tag_extract := @tag_extract Toy.loaded_csv;
  soup_get_text := fun s => Ok s;
  re_sub := fun pattern repl text =>
    if String.eqb pattern "[\r|\n|\r\n]+" && String.eqb repl newline
    then Ok (re_sub_line_breaks text) else Ok text;
  unicodedata_normalize := @unicodedata_normalize Toy.loaded_csv;
  str_encode := @str_encode Toy.loaded_csv;
  bytes_decode := @bytes_decode Toy.loaded_csv;
  contractions_fix := @contractions_fix Toy.loaded_csv;
  SentimentIntensityAnalyzer := @SentimentIntensityAnalyzer Toy.loaded_csv;
  polarity_scores := @polarity_scores Toy.loaded_csv;
  display_model_performance_metrics := @display_model_performance_metrics Toy.loaded_csv
|}.

End LineBreaks.

(** A stand-in library over a CSV with enough rows for the sample loop,
    and one whose VADER scores lack the ['pos'] entry. *)

Module ToyData.

Definition long_reviews : list (string * list string) :=
  [("review", replicate (Z.to_nat 48011) "a good movie");
   ("sentiment", replicate (Z.to_nat 48011) "positive")].

Definition long_csv : Library := Toy.library (Ok long_reviews).

Definition many_reviews : list string := replicate (Z.to_nat 13011) "a good movie".
Definition many_sentiments : list string := replicate (Z.to_nat 13011) "positive".

Definition compound_only (text : string) : result string (gmap string float) :=
  match Toy.lexicon Toy.f_0_25 Toy.f_neg_0_25 text with
  | Ok compound => Ok (<["compound" := compound]> ∅)
  | Raise e => Raise e
  end.

Definition no_compound (text : string) : result string (gmap string float) :=
  Ok (<["pos" := Toy.f_0_25]> ∅).

Definition with_scores (scores : string -> result string (gmap string float)) : Library := {|
  exn := @exn Toy.loaded_csv;
  frame := @frame Toy.loaded_csv;
  multiindex := @multiindex Toy.loaded_csv;
  afinn := @afinn Toy.loaded_csv;
  soup := @soup Toy.loaded_csv;
  tag := @tag Toy.loaded_csv;
  analyzer := @analyzer Toy.loaded_csv;
  KeyError := @KeyError Toy.loaded_csv;
  IndexError := @IndexError Toy.loaded_csv;
  py_round := @py_round Toy.loaded_csv;
  py_str := @py_str Toy.loaded_csv;
  pd_read_csv := @pd_read_csv Toy.loaded_csv;
  DataFrame_info := @DataFrame_info Toy.loaded_csv;
  DataFrame_getitem_values := @DataFrame_getitem_values Toy.loaded_csv;
  pd_MultiIndex := @pd_MultiIndex Toy.loaded_csv;
  pd_DataFrame := @pd_DataFrame Toy.loaded_csv;
  DataFrame_str := @DataFrame_str Toy.loaded_csv;
  TextBlob_polarity := @TextBlob_polarity Toy.loaded_csv;
  Afinn := @Afinn Toy.loaded_csv;
  Afinn_score := @Afinn_score Toy.loaded_csv;
  BeautifulSoup := @BeautifulSoup Toy.loaded_csv;
  soup_call := @soup_call Toy.loaded_csv;
  tag_extract := @tag_extract Toy.loaded_csv;
  soup_get_text := @soup_get_text Toy.loaded_csv;
  re_sub := @re_sub Toy.loaded_csv;
  unicodedata_normalize := @unicodedata_normalize Toy.loaded_csv;
  str_encode := @str_encode Toy.loaded_csv;
  bytes_decode := @bytes_decode Toy.loaded_csv;
  contractions_fix := @contractions_fix Toy.loaded_csv;
  SentimentIntensityAnalyzer := @SentimentIntensityAnalyzer Toy.loaded_csv;
  polarity_scores := fun _ => scores;
  display_model_performance_metrics := @display_model_performance_metrics Toy.loaded_csv
|}.

End ToyData.


(** * Facts *)

(** ** Float comparison *)

Section FloatFacts.

Lemma SFcompare_antisym (x y : float) : SFcompare y x = CompOpp <$> SFcompare x y.
Proof.
  destruct x as [sx|sx| |sx mx ex], y as [sy|sy| |sy my ey]; simpl; try done;
    try (by destruct sx); try (by destruct sy); try (by destruct sx, sy).
  destruct sx, sy; simpl; try done;
    rewrite (Z.compare_antisym ey ex); destruct (ey ?= ex)%Z; simpl; try done;
    f_equal; rewrite Pos.compare_cont_antisym; simpl;
    by rewrite ?CompOpp_involutive.
Qed.

(** [x < y] excludes [x >= y]. *)
Lemma ltb_not_geb (x y : float) : ltb x y = true -> geb x y = false.
Proof.
  unfold ltb, geb, SFltb, SFleb. rewrite (SFcompare_antisym x y).
  by destruct (SFcompare x y) as [[]|].
Qed.

(** The literals are binary64 numbers, in increasing order. *)
Lemma literals_binary64 :
  is_binary64 f_0_1 = true /\ is_binary64 f_0_4 = true /\
  is_binary64 f_1_0 = true /\ is_binary64 f_100 = true.
Proof. by vm_compute. Qed.

Lemma literals_ordered : ltb f_0_1 f_0_4 = true /\ ltb f_0_4 f_1_0 = true.
Proof. by vm_compute. Qed.

(** [f_0_1] and [f_0_4] are within half a unit in the last place of 1/10
    and 4/10; [f_1_0] and [f_100] are exactly 1 and 100. *)
Lemma literals_nearest :
  exists m1 m4 : positive,
    f_0_1 = S754_finite false m1 (-56) /\
    f_0_4 = S754_finite false m4 (-54) /\
    (Z.abs (10 * Z.pos m1 - 1 * 2 ^ 56) <= 5)%Z /\
    (Z.abs (10 * Z.pos m4 - 4 * 2 ^ 54) <= 5)%Z /\
    f_1_0 = S754_finite false (1 * 2 ^ 52) (-52) /\
    f_100 = S754_finite false (100 * 2 ^ 46) (-46).
Proof. eexists _, _. repeat split; by vm_compute. Qed.

End FloatFacts.

(** ** The monad *)

Section MonadFacts.
Context `{L : Library}.

Lemma outcome_bind {A B} (m : M A) (k : A -> M B) :
  outcome (bind m k) =
  match outcome m with Ok a => outcome (k a) | Raise e => Raise e end.
Proof.
  unfold outcome, bind. destruct m as [[a|e] es]; simpl; [by destruct (k a)|done].
Qed.

Lemma events_bind {A B} (m : M A) (k : A -> M B) :
  events (bind m k) =
  events m ++ match outcome m with Ok a => events (k a) | Raise _ => [] end.
Proof.
  unfold events, outcome, bind.
  destruct m as [[a|e] es]; simpl; [by destruct (k a)|by rewrite app_nil_r].
Qed.

Lemma outcome_ret {A} (a : A) : outcome (ret a) = Ok a.
Proof. done. Qed.

Lemma events_ret {A} (a : A) : events (ret a) = [].
Proof. done. Qed.

Lemma outcome_call {A} fn args (r : result exn A) : outcome (call fn args r) = r.
Proof. done. Qed.

Lemma events_call {A} fn args (r : result exn A) :
  events (call fn args r) = [Called fn args (raised_by r)].
Proof. done. Qed.

End MonadFacts.


Section ComprehensionFacts.
Context `{L : Library}.

(** A comprehension returns exactly when its body returns on every
    element, and then element by element. *)
Lemma list_comp_ok {A B} (f : A -> M B) (xs : list A) (ys : list B) :
  outcome (list_comp f xs) = Ok ys <->
  Forall2 (fun x y => outcome (f x) = Ok y) xs ys.
Proof.
  revert ys. induction xs as [|x xs IH]; intros ys; simpl.
  - rewrite outcome_ret. split.
    + intros [= <-]. constructor.
    + intros Hys. by inversion Hys.
  - rewrite outcome_bind. split.
    + destruct (outcome (f x)) as [y|e] eqn:Hx; [|done].
      rewrite outcome_bind.
      destruct (outcome (list_comp f xs)) as [ys'|e] eqn:Hxs; [|done].
      rewrite outcome_ret. intros [= <-]. constructor; [done|]. by apply IH.
    + intros Hys. inversion Hys as [|? y ? ys' Hy Hys']; subst.
      rewrite Hy, outcome_bind. apply IH in Hys'. by rewrite Hys'.
Qed.

(** It raises what its body raises on the first element that fails. *)
Lemma list_comp_raise {A B} (f : A -> M B) (pre post : list A) (x : A) (e : exn) :
  Forall (fun p => exists y, outcome (f p) = Ok y) pre ->
  outcome (f x) = Raise e ->
  outcome (list_comp f (pre ++ x :: post)) = Raise e.
Proof.
  intros Hpre Hx. induction Hpre as [|p pre [y Hy] _ IH]; simpl.
  - by rewrite outcome_bind, Hx.
  - by rewrite outcome_bind, Hy, outcome_bind, IH.
Qed.

Lemma list_comp_length {A B} (f : A -> M B) (xs : list A) (ys : list B) :
  outcome (list_comp f xs) = Ok ys -> length ys = length xs.
Proof. intros Hys%list_comp_ok. symmetry. by eapply Forall2_length. Qed.

End ComprehensionFacts.

(** ** VADER's wrapper *)

Section WrapperFacts.
Context `{L : Library}.

Lemma outcome_dict_getitem (d : gmap string float) (key : string) :
  outcome (dict_getitem d key) =
  match d !! key with Some v => Ok v | None => Raise (KeyError key) end.
Proof. done. Qed.

Ltac bind_step :=
  rewrite outcome_bind;
  match goal with
  | |- context [match outcome ?m with _ => _ end] =>
      let H := fresh "Hrun" in destruct (outcome m) eqn:H; try done
  end.

(** Whatever the arguments, a label that comes back is the threshold
    label of the review's compound score. *)
Lemma analyze_ok (review : string) (threshold : option float) (verbose : option bool)
    (label : string) :
  outcome (analyze_sentiment_vader_lexicon review threshold verbose) = Ok label ->
  exists score,
    compound_score review score /\
    label = threshold_label (default threshold_default threshold) score.
Proof.
  unfold analyze_sentiment_vader_lexicon.
  bind_step. bind_step. bind_step. bind_step. bind_step.
  rewrite outcome_call in *.
  rewrite outcome_bind, outcome_dict_getitem.
  destruct (_ !! "compound") as [score|] eqn:Hc; [|done].
  bind_step. rewrite outcome_ret. intros [= <-].
  exists score. split; [|done].
  eexists _, _, _. split; [eexists _, _; eauto|eauto].
Qed.

(** Without [verbose] the wrapper returns as soon as the score exists. *)
Lemma analyze_quiet (review : string) (threshold : option float) (verbose : option bool)
    (score : float) :
  default verbose_default verbose = false ->
  compound_score review score ->
  outcome (analyze_sentiment_vader_lexicon review threshold verbose) =
  Ok (threshold_label (default threshold_default threshold) score).
Proof.
  intros Hv (text & an & scores & (t1 & t2 & H1 & H2 & H3) & Han & Hsc & Hc).
  unfold analyze_sentiment_vader_lexicon. rewrite Hv.
  rewrite outcome_bind, H1, outcome_bind, H2, outcome_bind, H3.
  rewrite outcome_bind, outcome_call, Han, outcome_bind, outcome_call, Hsc.
  rewrite outcome_bind, outcome_dict_getitem, Hc.
  by rewrite outcome_bind, !outcome_ret.
Qed.

(** The score of a review is unique: the helpers and the scorer are
    functions. *)
Lemma compound_score_unique (review : string) (s1 s2 : float) :
  compound_score review s1 -> compound_score review s2 -> s1 = s2.
Proof.
  intros (x1 & a1 & d1 & (u1 & v1 & Hu1 & Hv1 & Hx1) & Ha1 & Hd1 & Hs1)
         (x2 & a2 & d2 & (u2 & v2 & Hu2 & Hv2 & Hx2) & Ha2 & Hd2 & Hs2).
  congruence.
Qed.

End WrapperFacts.

(** ** The threshold classifier *)

Lemma threshold_label_spec (cutoff score : float) :
  labelled_by_cutoff cutoff score (threshold_label cutoff score).
Proof. unfold labelled_by_cutoff, threshold_label. by destruct (geb score cutoff). Qed.

Lemma Forall2_factor {A B C} (P : A -> B -> Prop) (Q : B -> C -> Prop)
    (xs : list A) (zs : list C) :
  Forall2 (fun x z => exists y, P x y /\ Q y z) xs zs ->
  exists ys, Forall2 P xs ys /\ Forall2 Q ys zs.
Proof.
  induction 1 as [|x z xs zs (y & HP & HQ) _ (ys & HPs & HQs)].
  - exists []. split; constructor.
  - exists (y :: ys). split; by constructor.
Qed.

Lemma Forall2_threshold_label (cutoff : float) (scores : list float) :
  Forall2 (labelled_by_cutoff cutoff) scores (threshold_label cutoff <$> scores).
Proof.
  apply Forall2_fmap_r, Forall_Forall2_diag, Forall_forall.
  intros score _. apply threshold_label_spec.
Qed.

Section PipelineFacts.
Context `{L : Library}.

(** The labels of the TextBlob cells are the threshold labels of the
    scores the library gave, review by review. *)
Lemma textblob_pipeline_ok (test_reviews labels : list string) :
  outcome (textblob_pipeline test_reviews) = Ok labels <->
  exists scores,
    Forall2 (fun review score => TextBlob_polarity review = Ok score) test_reviews scores /\
    labels = threshold_label f_0_1 <$> scores.
Proof.
  unfold textblob_pipeline, textblob_sentiment_polarity. rewrite outcome_bind. split.
  - destruct (outcome (list_comp _ _)) as [scores|e] eqn:Hs; [|done].
    rewrite outcome_ret. intros [= <-]. exists scores. split; [|done].
    by apply list_comp_ok in Hs.
  - intros (scores & Hs & ->). apply (list_comp_ok (fun review => textblob_polarity review)) in Hs.
    by rewrite Hs.
Qed.

Lemma afinn_pipeline_ok (afn : afinn) (test_reviews labels : list string) :
  outcome (afinn_pipeline afn test_reviews) = Ok labels <->
  exists scores,
    Forall2 (fun review score => Afinn_score afn review = Ok score) test_reviews scores /\
    labels = threshold_label f_1_0 <$> scores.
Proof.
  unfold afinn_pipeline, afinn_sentiment_polarity. rewrite outcome_bind. split.
  - destruct (outcome (list_comp _ _)) as [scores|e] eqn:Hs; [|done].
    rewrite outcome_ret. intros [= <-]. exists scores. split; [|done].
    by apply list_comp_ok in Hs.
  - intros (scores & Hs & ->). apply (list_comp_ok (fun review => afinn_score afn review)) in Hs.
    by rewrite Hs.
Qed.

Lemma vader_pipeline_ok (test_reviews labels : list string) :
  outcome (vader_predicted_sentiments test_reviews) = Ok labels <->
  exists scores,
    Forall2 compound_score test_reviews scores /\
    labels = threshold_label f_0_4 <$> scores.
Proof.
  unfold vader_predicted_sentiments. rewrite list_comp_ok. split.
  - intros Hl.
    assert (Forall2 (fun review label => exists score,
               compound_score review score /\ label = threshold_label f_0_4 score)
              test_reviews labels) as Hf.
    { eapply Forall2_impl; [done|]. intros review label Hr.
      by apply analyze_ok in Hr. }
    clear Hl. induction Hf as [|review label rs ls (score & Hs & ->) _ (scores & Hss & ->)].
    + by exists [].
    + exists (score :: scores). split; [by constructor|done].
  - intros (scores & Hs & ->). apply Forall2_fmap_r.
    eapply Forall2_impl; [done|]. intros review score Hr. by apply analyze_quiet.
Qed.

End PipelineFacts.

(** ** Exceptions are never caught *)

Section Propagation.
Context `{L : Library}.

Lemma propagates_ret {A} (a : A) : propagates (ret a).
Proof. unfold propagates. rewrite outcome_ret, events_ret. constructor. Qed.

Lemma propagates_print (args : list string) : propagates (print args).
Proof. unfold propagates, print, outcome, events; simpl. by repeat constructor. Qed.

Lemma propagates_call {A} fn args (r : result exn A) : propagates (call fn args r).
Proof.
  unfold propagates. rewrite outcome_call, events_call. destruct r as [a|e]; simpl.
  - by repeat constructor.
  - by exists [], fn, args.
Qed.

Lemma propagates_bind {A B} (m : M A) (k : A -> M B) :
  propagates m -> (forall a, propagates (k a)) -> propagates (bind m k).
Proof.
  unfold propagates. rewrite outcome_bind, events_bind.
  intros Hm Hk. destruct (outcome m) as [a|e].
  - specialize (Hk a). destruct (outcome (k a)) as [b|e].
    + by apply Forall_app.
    + destruct Hk as (es & fn & args & -> & Hes).
      exists (events m ++ es), fn, args. split; [by rewrite (assoc_L (++))|].
      by apply Forall_app.
  - by rewrite (right_id_L [] (++)).
Qed.

Lemma propagates_list_comp {A B} (f : A -> M B) (xs : list A) :
  (forall x, propagates (f x)) -> propagates (list_comp f xs).
Proof.
  intros Hf. induction xs as [|x xs IH]; simpl.
  - apply propagates_ret.
  - apply propagates_bind; [done|]. intros y.
    apply propagates_bind; [done|]. intros ys. apply propagates_ret.
Qed.

Lemma propagates_for_each {A} (body : A -> M unit) (xs : list A) :
  (forall x, propagates (body x)) -> propagates (for_each body xs).
Proof.
  intros Hf. induction xs as [|x xs IH]; simpl.
  - apply propagates_ret.
  - by apply propagates_bind.
Qed.

(** What propagation means for an observer of the trace. *)
Lemma propagates_raised {A} (m : M A) fn args e :
  propagates m ->
  Called fn args (Some e) ∈ events m ->
  outcome m = Raise e /\ last (events m) = Some (Called fn args (Some e)).
Proof.
  unfold propagates. intros Hm Hin. destruct (outcome m) as [a|e'].
  - rewrite Forall_forall in Hm. by destruct (Hm _ Hin).
  - destruct Hm as (es & fn' & args' & Hev & Hes). rewrite Hev in Hin |- *.
    apply elem_of_app in Hin as [Hin|Hin].
    + rewrite Forall_forall in Hes. by destruct (Hes _ Hin).
    + apply list_elem_of_singleton in Hin as [= -> -> ->]. by rewrite last_snoc.
Qed.

Lemma propagates_raise {A} (m : M A) e :
  propagates m ->
  outcome m = Raise e ->
  exists fn args, last (events m) = Some (Called fn args (Some e)).
Proof.
  unfold propagates. intros Hm Ho. rewrite Ho in Hm.
  destruct Hm as (es & fn & args & -> & _). exists fn, args. apply last_snoc.
Qed.

Ltac propagate :=
  repeat first
    [ apply propagates_ret
    | apply propagates_print
    | apply propagates_call
    | apply propagates_bind; [|intros ?]
    | apply propagates_list_comp; intros ?
    | apply propagates_for_each; intros ?
    | assumption ].

Lemma propagates_extract_all (tags : list tag) (soup0 : soup) :
  propagates (extract_all tags soup0).
Proof. revert soup0. induction tags; intros soup0; simpl; propagate. apply IHtags. Qed.

Lemma propagates_strip_html_tags text : propagates (strip_html_tags text).
Proof. unfold strip_html_tags. propagate. apply propagates_extract_all. Qed.

Lemma propagates_remove_accented_chars text : propagates (remove_accented_chars text).
Proof. unfold remove_accented_chars. propagate. Qed.

Lemma propagates_expand_contractions text : propagates (expand_contractions text).
Proof. unfold expand_contractions. propagate. Qed.

Lemma propagates_analyze review threshold verbose :
  propagates (analyze_sentiment_vader_lexicon review threshold verbose).
Proof.
  unfold analyze_sentiment_vader_lexicon, dict_getitem.
  apply propagates_bind; [apply propagates_strip_html_tags|intros ?].
  apply propagates_bind; [apply propagates_remove_accented_chars|intros ?].
  apply propagates_bind; [apply propagates_expand_contractions|intros ?].
  propagate. destruct (default verbose_default verbose); propagate.
Qed.

Lemma propagates_sample_reviews test_reviews test_sentiments predict :
  (forall review, propagates (predict review)) ->
  propagates (sample_reviews test_reviews test_sentiments predict).
Proof.
  intros Hp. unfold sample_reviews, ndarray_getitem. propagate.
  destruct x as [review sentiment]. propagate. apply Hp.
Qed.

Lemma propagates_report test_sentiments predicted_sentiments :
  propagates (report test_sentiments predicted_sentiments).
Proof. unfold report. propagate. Qed.

Lemma propagates_evaluate test_reviews test_sentiments :
  propagates (evaluate test_reviews test_sentiments).
Proof.
  unfold evaluate, textblob_samples, textblob_pipeline, textblob_sentiment_polarity,
    textblob_polarity, afinn_new, afinn_samples, afinn_pipeline,
    afinn_sentiment_polarity, afinn_score, vader_samples, vader_predicted_sentiments.
  repeat first
    [ apply propagates_report
    | apply propagates_analyze
    | apply propagates_sample_reviews; intros ?
    | apply propagates_ret
    | apply propagates_print
    | apply propagates_call
    | apply propagates_bind; [|intros ?]
    | apply propagates_list_comp; intros ? ].
Qed.

Lemma propagates_notebook : propagates notebook.
Proof.
  unfold notebook.
  apply propagates_bind; [unfold load_dataset; propagate|intros dataset].
  apply propagates_bind; [|intros split; apply propagates_evaluate].
  unfold extract_test_data, test_column. propagate.
Qed.

End Propagation.

(** ** What a trace contains *)

Section Traces.
Context `{L : Library}.

Lemma events_print (args : list string) : events (print args) = [Printed args].
Proof. done. Qed.

Lemma Forall_events_bind {A B} (P : event exn -> Prop) (m : M A) (k : A -> M B) :
  Forall P (events m) ->
  (forall a, outcome m = Ok a -> Forall P (events (k a))) ->
  Forall P (events (bind m k)).
Proof.
  intros Hm Hk. rewrite events_bind. apply Forall_app. split; [done|].
  destruct (outcome m) as [a|e]; [by apply Hk|constructor].
Qed.

Lemma Forall_events_call {A} (P : event exn -> Prop) fn args (r : result exn A) :
  P (Called fn args (raised_by r)) -> Forall P (events (call fn args r)).
Proof. intros HP. rewrite events_call. by repeat constructor. Qed.

Lemma Forall_events_print (P : event exn -> Prop) args :
  P (Printed args) -> Forall P (events (print args)).
Proof. intros HP. rewrite events_print. by repeat constructor. Qed.

Lemma Forall_events_ret {A} (P : event exn -> Prop) (a : A) : Forall P (events (ret a)).
Proof. rewrite events_ret. constructor. Qed.

Lemma Forall_events_list_comp {A B} (P : event exn -> Prop) (f : A -> M B) (xs : list A) :
  (forall x, x ∈ xs -> Forall P (events (f x))) ->
  Forall P (events (list_comp f xs)).
Proof.
  induction xs as [|x xs IH]; intros Hf; simpl.
  - apply Forall_events_ret.
  - apply Forall_events_bind; [apply Hf; left|intros y _].
    apply Forall_events_bind; [|intros ys _; apply Forall_events_ret].
    apply IH. intros x' Hx'. apply Hf. by right.
Qed.

Lemma Forall_events_for_each {A} (P : event exn -> Prop) (body : A -> M unit) (xs : list A) :
  (forall x, x ∈ xs -> Forall P (events (body x))) ->
  Forall P (events (for_each body xs)).
Proof.
  induction xs as [|x xs IH]; intros Hf; simpl.
  - apply Forall_events_ret.
  - apply Forall_events_bind; [apply Hf; left|intros _ _].
    apply IH. intros x' Hx'. apply Hf. by right.
Qed.

(** A comprehension whose body is one call on the element makes one call
    per element, on the element as it is, up to the first that raises. *)
Lemma events_list_comp_call {A} (fn : libfn) (F : string -> result exn A)
    (xs : list string) :
  exists n,
    events (list_comp (fun x => call fn [x] (F x)) xs) =
    (fun x => Called fn [x] (raised_by (F x))) <$> take n xs /\
    (forall ys, outcome (list_comp (fun x => call fn [x] (F x)) xs) = Ok ys ->
                take n xs = xs).
Proof.
  induction xs as [|x xs (n & IH & Hn)]; simpl.
  - exists 0. by rewrite events_ret.
  - rewrite events_bind, events_call, outcome_bind, outcome_call.
    destruct (F x) as [y|e] eqn:HF.
    + exists (S n). rewrite events_bind, outcome_bind, IH. simpl.
      destruct (outcome (list_comp _ xs)) as [ys'|e].
      * rewrite events_ret, (right_id_L [] (++)), HF. split; [done|].
        intros _ _. f_equal. by eapply Hn.
      * by rewrite (right_id_L [] (++)), HF.
    + exists 1. simpl. rewrite take_0, ?HF. by split.
Qed.

(** Indexing with a list of indices yields elements of the array. *)
Lemma take_indices_elem_of {A} (arr : list A) (ids : list Z) (xs : list A) :
  take_indices arr ids = Ok xs -> forall x, x ∈ xs -> x ∈ arr.
Proof.
  revert xs. induction ids as [|i ids IH]; intros xs; simpl.
  - intros [= <-] x Hx. by apply elem_of_nil in Hx.
  - destruct (arr !! Z.to_nat i) as [y|] eqn:Hy; [|done].
    destruct (take_indices arr ids) as [ys|e]; [|done].
    intros [= <-] x [->|Hx]%elem_of_cons.
    + by eapply list_elem_of_lookup_2.
    + by eapply IH.
Qed.

End Traces.

(** ** The texts that reach a scorer *)

Section Scored.
Context `{L : Library}.

Lemma calls_to_app fn (t1 t2 : trace) :
  calls_to fn (t1 ++ t2) = calls_to fn t1 ++ calls_to fn t2.
Proof. apply omap_app. Qed.

Lemma calls_to_cons fn fn' args o (t : trace) :
  calls_to fn (Called fn' args o :: t) =
  if bool_decide (fn' = fn) then args :: calls_to fn t else calls_to fn t.
Proof. unfold calls_to. simpl. by destruct (bool_decide (fn' = fn)). Qed.

Lemma calls_to_none fn (t : trace) : Forall (not_call_to fn) t -> calls_to fn t = [].
Proof.
  induction 1 as [|ev t Hev _ IH]; [done|].
  destruct ev as [args|fn' args o]; simpl in Hev.
  - exact IH.
  - unfold calls_to. simpl. rewrite bool_decide_eq_false_2 by done. exact IH.
Qed.


Lemma Forall_events_extract_all (P : event exn -> Prop) (tags : list tag) (soup0 : soup) :
  (forall o, P (Called tag_extract_fn [] o)) ->
  Forall P (events (extract_all tags soup0)).
Proof.
  intros HP. revert soup0. induction tags as [|s tags IH]; intros soup0; simpl.
  - apply Forall_events_ret.
  - apply Forall_events_bind; [by apply Forall_events_call|]. intros soup1 _. apply IH.
Qed.






(** The wrapper hands its argument, and only it, to the HTML parser. *)
Lemma analyze_hands_over texts review threshold verbose :
  review ∈ texts ->
  Forall (hands_over_only texts)
         (events (analyze_sentiment_vader_lexicon review threshold verbose)).
Proof.
  intros Hin. unfold analyze_sentiment_vader_lexicon, strip_html_tags,
    remove_accented_chars, expand_contractions, dict_getitem.
  assert (forall fn args o, fn ∉ entry_points ->
            hands_over_only texts (Called fn args o)) as Hother.
  { intros fn args o Hfn text. unfold handed_over. destruct args; [done|].
    by rewrite bool_decide_eq_false_2. }
  assert (forall args, hands_over_only texts (Printed args)) as Hprint by done.
  assert (hands_over_only texts
            (Called BeautifulSoup_fn [review; "html.parser"]
                    (raised_by (BeautifulSoup review "html.parser")))) as Hsoup.
  { by intros text [= <-]. }
  assert (forall fn, fn <> TextBlob_polarity_fn -> fn <> Afinn_score_fn ->
            fn <> BeautifulSoup_fn -> fn ∉ entry_points) as Hne.
  { intros fn Ha Hb Hc. unfold entry_points. rewrite !not_elem_of_cons.
    repeat split; [done..|apply not_elem_of_nil]. }
  repeat first
    [ apply Forall_events_ret
    | apply Forall_events_print; apply Hprint
    | apply Forall_events_call; [exact Hsoup || (apply Hother, Hne; done)]
    | apply Forall_events_extract_all; intros ?; apply Hother, Hne; done
    | apply Forall_events_bind; [|intros ? ?]
    | match goal with |- context [if ?b then _ else _] => destruct b end ].
Qed.

End Scored.

Section Evaluation.
Context `{L : Library}.

Lemma hands_over_only_print texts args : hands_over_only (L := L) texts (Printed args).
Proof. done. Qed.

Lemma hands_over_only_no_text texts fn o : hands_over_only (L := L) texts (Called fn [] o).
Proof. done. Qed.

Lemma hands_over_only_text texts fn text o :
  text ∈ texts -> hands_over_only (L := L) texts (Called fn [text] o).
Proof.
  intros Hin text'. unfold handed_over. destruct (bool_decide _); [|done].
  by intros [= <-].
Qed.

Lemma sample_reviews_hands_over test_reviews test_sentiments predict :
  (forall review, review ∈ test_reviews ->
                  Forall (hands_over_only test_reviews) (events (predict review))) ->
  Forall (hands_over_only test_reviews)
         (events (sample_reviews test_reviews test_sentiments predict)).
Proof.
  intros Hp. unfold sample_reviews, ndarray_getitem.
  apply Forall_events_bind;
    [apply Forall_events_call, hands_over_only_no_text|intros reviews Hreviews].
  apply Forall_events_bind;
    [apply Forall_events_call, hands_over_only_no_text|intros sentiments _].
  apply Forall_events_for_each. intros [review sentiment] Hin.
  apply elem_of_zip_l in Hin. rewrite outcome_call in Hreviews.
  pose proof (take_indices_elem_of _ _ _ Hreviews _ Hin) as Hreview.
  repeat first
    [ apply Forall_events_print, hands_over_only_print
    | apply Forall_events_bind; [|intros ? ?] ].
  by apply Hp.
Qed.

Lemma report_hands_over texts test_sentiments predicted_sentiments :
  Forall (hands_over_only texts) (events (report test_sentiments predicted_sentiments)).
Proof.
  unfold report.
  apply Forall_events_bind; [apply Forall_events_call, hands_over_only_no_text|].
  intros lines _. apply Forall_events_print, hands_over_only_print.
Qed.

Lemma textblob_samples_hands_over test_reviews test_sentiments :
  Forall (hands_over_only test_reviews)
         (events (textblob_samples test_reviews test_sentiments)).
Proof.
  apply sample_reviews_hands_over. intros review Hin. unfold textblob_polarity.
  apply Forall_events_bind;
    [by apply Forall_events_call, hands_over_only_text|intros polarity _].
  apply Forall_events_print, hands_over_only_print.
Qed.

Lemma textblob_pipeline_hands_over test_reviews :
  Forall (hands_over_only test_reviews) (events (textblob_pipeline test_reviews)).
Proof.
  unfold textblob_pipeline, textblob_sentiment_polarity, textblob_polarity.
  apply Forall_events_bind; [|intros; apply Forall_events_ret].
  apply Forall_events_list_comp. intros review Hin.
  by apply Forall_events_call, hands_over_only_text.
Qed.

Lemma afinn_samples_hands_over afn test_reviews test_sentiments :
  Forall (hands_over_only test_reviews)
         (events (afinn_samples afn test_reviews test_sentiments)).
Proof.
  apply sample_reviews_hands_over. intros review Hin. unfold afinn_score.
  apply Forall_events_bind;
    [by apply Forall_events_call, hands_over_only_text|intros polarity _].
  apply Forall_events_print, hands_over_only_print.
Qed.

Lemma afinn_pipeline_hands_over afn test_reviews :
  Forall (hands_over_only test_reviews) (events (afinn_pipeline afn test_reviews)).
Proof.
  unfold afinn_pipeline, afinn_sentiment_polarity, afinn_score.
  apply Forall_events_bind; [|intros; apply Forall_events_ret].
  apply Forall_events_list_comp. intros review Hin.
  by apply Forall_events_call, hands_over_only_text.
Qed.

Lemma vader_samples_hands_over test_reviews test_sentiments :
  Forall (hands_over_only test_reviews)
         (events (vader_samples test_reviews test_sentiments)).
Proof.
  apply sample_reviews_hands_over. intros review Hin.
  apply Forall_events_bind; [by apply analyze_hands_over|].
  intros; apply Forall_events_ret.
Qed.

Lemma vader_pipeline_hands_over test_reviews :
  Forall (hands_over_only test_reviews)
         (events (vader_predicted_sentiments test_reviews)).
Proof.
  unfold vader_predicted_sentiments. apply Forall_events_list_comp.
  intros review Hin. by apply analyze_hands_over.
Qed.

(** Whatever the evaluation hands to a scorer is a test review. *)
Lemma evaluate_hands_over test_reviews test_sentiments :
  Forall (hands_over_only test_reviews) (events (evaluate test_reviews test_sentiments)).
Proof.
  unfold evaluate.
  apply Forall_events_bind; [apply textblob_samples_hands_over|intros _ _].
  apply Forall_events_bind; [apply textblob_pipeline_hands_over|intros labels _].
  apply Forall_events_bind; [apply report_hands_over|intros _ _].
  apply Forall_events_bind;
    [apply Forall_events_call, hands_over_only_no_text|intros afn _].
  apply Forall_events_bind; [apply afinn_samples_hands_over|intros _ _].
  apply Forall_events_bind; [apply afinn_pipeline_hands_over|intros labels' _].
  apply Forall_events_bind; [apply report_hands_over|intros _ _].
  apply Forall_events_bind; [apply vader_samples_hands_over|intros _ _].
  apply Forall_events_bind; [apply vader_pipeline_hands_over|intros labels'' _].
  apply report_hands_over.
Qed.

(** The test split of a column. *)
Lemma outcome_test_column dataset col values :
  DataFrame_getitem_values dataset col = Ok values ->
  outcome (test_column dataset col) = Ok (drop (Z.to_nat test_split_start) values).
Proof.
  intros Hv. unfold test_column. by rewrite outcome_bind, outcome_call, Hv, outcome_ret.
Qed.

Lemma outcome_extract_test_data dataset reviews sentiments :
  DataFrame_getitem_values dataset "review" = Ok reviews ->
  DataFrame_getitem_values dataset "sentiment" = Ok sentiments ->
  outcome (extract_test_data dataset) =
  Ok (drop (Z.to_nat test_split_start) reviews,
      drop (Z.to_nat test_split_start) sentiments).
Proof.
  intros Hr Hs. unfold extract_test_data.
  rewrite outcome_bind, (outcome_test_column _ _ _ Hr).
  by rewrite outcome_bind, (outcome_test_column _ _ _ Hs), outcome_ret.
Qed.

End Evaluation.

(** ** Labels, review by review *)

Section Pointwise.
Context `{L : Library}.

Lemma threshold_label_binary cutoff score : binary_label (threshold_label cutoff score).
Proof. unfold binary_label, threshold_label. destruct (geb score cutoff); auto. Qed.

Lemma Forall_threshold_label_binary cutoff (scores : list float) :
  Forall binary_label (threshold_label cutoff <$> scores).
Proof. apply Forall_fmap, Forall_forall. intros score _. apply threshold_label_binary. Qed.

(** When scores are a function of the review, so are the labels, place
    by place. *)
Lemma labels_pointwise (R : string -> float -> Prop) (cutoff : float)
    (reviews1 reviews2 : list string) (scores1 scores2 : list float) (i : nat) :
  (forall review s s', R review s -> R review s' -> s = s') ->
  Forall2 R reviews1 scores1 ->
  Forall2 R reviews2 scores2 ->
  reviews1 !! i = reviews2 !! i ->
  (threshold_label cutoff <$> scores1) !! i = (threshold_label cutoff <$> scores2) !! i.
Proof.
  intros Hfun H1 H2 Hi. rewrite !list_lookup_fmap.
  destruct (reviews1 !! i) as [review|] eqn:Hr.
  - destruct (Forall2_lookup_l _ _ _ _ _ H1 Hr) as (s1 & -> & Hs1).
    symmetry in Hi.
    destruct (Forall2_lookup_l _ _ _ _ _ H2 Hi) as (s2 & -> & Hs2).
    simpl. f_equal. f_equal. by eapply Hfun.
  - symmetry in Hi. apply lookup_ge_None in Hr, Hi.
    rewrite (Forall2_length _ _ _ H1) in Hr. rewrite (Forall2_length _ _ _ H2) in Hi.
    apply lookup_ge_None in Hr, Hi. by rewrite Hr, Hi.
Qed.

Lemma TextBlob_polarity_fun review (s s' : float) :
  TextBlob_polarity review = Ok s -> TextBlob_polarity review = Ok s' -> s = s'.
Proof. congruence. Qed.

Lemma Afinn_score_fun afn review (s s' : float) :
  Afinn_score afn review = Ok s -> Afinn_score afn review = Ok s' -> s = s'.
Proof. congruence. Qed.

End Pointwise.

Section LowScores.
Context `{L : Library}.

(** A review that TextBlob scores below 0.1 is labelled ['negative']. *)
Lemma textblob_label_of_low_score (review : string) (score : float) :
  TextBlob_polarity review = Ok score ->
  ltb score f_0_1 = true ->
  outcome (textblob_pipeline [review]) = Ok ["negative"].
Proof.
  intros Hscore Hlow%ltb_not_geb. apply textblob_pipeline_ok. exists [score].
  split; [by repeat constructor|]. simpl. unfold threshold_label. by rewrite Hlow.
Qed.

End LowScores.

(** * The claims *)

(** C1. Every polarity score a pipeline produces is labelled ['positive']
    exactly when it is at least the pipeline's cutoff and ['negative']
    otherwise: 0.1 for the TextBlob cells, 1.0 for the AFINN cell, and 0.4
    for the VADER wrapper at both places where the notebook calls it. *)
Theorem threshold_classifier_cutoffs `{L : Library} :
  (forall test_reviews labels,
     outcome (textblob_pipeline test_reviews) = Ok labels ->
     exists scores,
       Forall2 (fun review score => TextBlob_polarity review = Ok score)
               test_reviews scores /\
       Forall2 (labelled_by_cutoff f_0_1) scores labels) /\
  (forall afn test_reviews labels,
     outcome (afinn_pipeline afn test_reviews) = Ok labels ->
     exists scores,
       Forall2 (fun review score => Afinn_score afn review = Ok score)
               test_reviews scores /\
       Forall2 (labelled_by_cutoff f_1_0) scores labels) /\
  (forall test_reviews labels,
     outcome (vader_predicted_sentiments test_reviews) = Ok labels ->
     exists scores,
       Forall2 compound_score test_reviews scores /\
       Forall2 (labelled_by_cutoff f_0_4) scores labels) /\
  (forall review verbose label,
     outcome (analyze_sentiment_vader_lexicon review (Some f_0_4) verbose) = Ok label ->
     exists score,
       compound_score review score /\ labelled_by_cutoff f_0_4 score label).
Proof.
  repeat split.
  - intros test_reviews labels (scores & Hs & ->)%textblob_pipeline_ok.
    exists scores. split; [done|apply Forall2_threshold_label].
  - intros afn test_reviews labels (scores & Hs & ->)%afinn_pipeline_ok.
    exists scores. split; [done|apply Forall2_threshold_label].
  - intros test_reviews labels (scores & Hs & ->)%vader_pipeline_ok.
    exists scores. split; [done|apply Forall2_threshold_label].
  - intros review verbose label (score & Hs & ->)%analyze_ok.
    exists score. split; [done|apply threshold_label_spec].
Qed.

Lemma threshold_classifier_cutoffs_witness :
  outcome (L := Toy.loaded_csv) (textblob_pipeline ["a good movie"; "a bad movie"])
    = Ok ["positive"; "negative"] /\
  (exists scores,
     Forall2 (fun review score => Toy.lexicon Toy.f_0_25 Toy.f_neg_0_25 review = Ok score)
             ["a good movie"; "a bad movie"] scores /\
     Forall2 (labelled_by_cutoff f_0_1) scores ["positive"; "negative"]) /\
  (exists scores,
     Forall2 (fun review score => Toy.lexicon Toy.f_2_0 Toy.f_neg_2_0 review = Ok score)
             ["a good movie"; "a bad movie"] scores /\
     Forall2 (labelled_by_cutoff f_1_0) scores ["positive"; "negative"]) /\
  (exists scores,
     Forall2 (compound_score (L := Toy.loaded_csv)) ["a good movie"; "a bad movie"] scores /\
     Forall2 (labelled_by_cutoff f_0_4) scores ["negative"; "negative"]) /\
  (exists score,
     compound_score (L := Toy.loaded_csv) "a good movie" score /\
     labelled_by_cutoff f_0_4 score "negative").
Proof.
  destruct (threshold_classifier_cutoffs (L := Toy.loaded_csv)) as (HT & HA & HV & HW).
  split; [reflexivity|]. split; [|split; [|split]].
  - apply (HT ["a good movie"; "a bad movie"] ["positive"; "negative"]). reflexivity.
  - apply (HA tt ["a good movie"; "a bad movie"] ["positive"; "negative"]). reflexivity.
  - apply (HV ["a good movie"; "a bad movie"] ["negative"; "negative"]). reflexivity.
  - apply (HW "a good movie" (Some true) "negative"). reflexivity.
Defined.

(** C4. Each pipeline puts out one label per review, and every label is
    ['positive'] or ['negative']: for one review the output is the list
    of one such label unless the library raised, and the wrapper returns
    one of the two also when [verbose] makes it compute the neutral
    share. *)
Theorem labels_are_binary `{L : Library} :
  (forall test_reviews labels,
     outcome (textblob_pipeline test_reviews) = Ok labels ->
     length labels = length test_reviews /\ Forall binary_label labels) /\
  (forall afn test_reviews labels,
     outcome (afinn_pipeline afn test_reviews) = Ok labels ->
     length labels = length test_reviews /\ Forall binary_label labels) /\
  (forall test_reviews labels,
     outcome (vader_predicted_sentiments test_reviews) = Ok labels ->
     length labels = length test_reviews /\ Forall binary_label labels) /\
  (forall review,
     match outcome (textblob_pipeline [review]) with
     | Ok labels => labels = ["positive"] \/ labels = ["negative"]
     | Raise e => TextBlob_polarity review = Raise e
     end) /\
  (forall afn review,
     match outcome (afinn_pipeline afn [review]) with
     | Ok labels => labels = ["positive"] \/ labels = ["negative"]
     | Raise e => Afinn_score afn review = Raise e
     end) /\
  (forall review threshold verbose,
     match outcome (analyze_sentiment_vader_lexicon review threshold verbose) with
     | Ok label => label = "positive" \/ label = "negative"
     | Raise e =>
         exists fn args,
           last (events (analyze_sentiment_vader_lexicon review threshold verbose))
           = Some (Called fn args (Some e))
     end).
Proof.
  split; [|split; [|split; [|split; [|split]]]].
  - intros test_reviews labels (scores & Hs & ->)%textblob_pipeline_ok.
    rewrite length_fmap, (Forall2_length _ _ _ Hs).
    split; [done|apply Forall_threshold_label_binary].
  - intros afn test_reviews labels (scores & Hs & ->)%afinn_pipeline_ok.
    rewrite length_fmap, (Forall2_length _ _ _ Hs).
    split; [done|apply Forall_threshold_label_binary].
  - intros test_reviews labels (scores & Hs & ->)%vader_pipeline_ok.
    rewrite length_fmap, (Forall2_length _ _ _ Hs).
    split; [done|apply Forall_threshold_label_binary].
  - intros review. unfold textblob_pipeline, textblob_sentiment_polarity. simpl.
    rewrite !outcome_bind. unfold textblob_polarity at 1. rewrite outcome_call.
    destruct (TextBlob_polarity review) as [score|e]; [|done].
    rewrite outcome_bind, !outcome_ret. simpl.
    destruct (geb score f_0_1); auto.
  - intros afn review. unfold afinn_pipeline, afinn_sentiment_polarity. simpl.
    rewrite !outcome_bind. unfold afinn_score at 1. rewrite outcome_call.
    destruct (Afinn_score afn review) as [score|e]; [|done].
    rewrite outcome_bind, !outcome_ret. simpl.
    destruct (geb score f_1_0); auto.
  - intros review threshold verbose.
    destruct (outcome (analyze_sentiment_vader_lexicon review threshold verbose))
      as [label|e] eqn:Hrun.
    + apply analyze_ok in Hrun as (score & _ & ->). apply threshold_label_binary.
    + eapply propagates_raise; [apply propagates_analyze|done].
Qed.

Lemma labels_are_binary_witness :
  (length ["positive"; "negative"] = length ["a good movie"; "a bad movie"] /\
   Forall binary_label ["positive"; "negative"]) /\
  (length ["positive"; "negative"] = length ["a good movie"; "a bad movie"] /\
   Forall binary_label ["positive"; "negative"]) /\
  (length ["negative"; "negative"] = length ["a good movie<br />"; "a bad movie"] /\
   Forall binary_label ["negative"; "negative"]).
Proof.
  destruct (labels_are_binary (L := Toy.loaded_csv)) as (HT & HA & HV & _).
  split; [|split].
  - apply (HT ["a good movie"; "a bad movie"]). reflexivity.
  - apply (HA tt ["a good movie"; "a bad movie"]). reflexivity.
  - apply (HV ["a good movie<br />"; "a bad movie"]). reflexivity.
Defined.

(** C8. Reviews are scored one by one: when two review lists agree at a
    place, each pipeline gives the same label at that place whatever
    stands elsewhere in the lists, and the list of labels is as long as
    the list of reviews. *)
Theorem reviews_scored_independently `{L : Library}
    (reviews1 reviews2 : list string) (i : nat)
    (Hlength : length reviews1 = length reviews2)
    (Hagree : reviews1 !! i = reviews2 !! i) :
  (forall labels1 labels2,
     outcome (textblob_pipeline reviews1) = Ok labels1 ->
     outcome (textblob_pipeline reviews2) = Ok labels2 ->
     labels1 !! i = labels2 !! i /\
     length labels1 = length reviews1 /\ length labels2 = length reviews2) /\
  (forall afn labels1 labels2,
     outcome (afinn_pipeline afn reviews1) = Ok labels1 ->
     outcome (afinn_pipeline afn reviews2) = Ok labels2 ->
     labels1 !! i = labels2 !! i /\
     length labels1 = length reviews1 /\ length labels2 = length reviews2) /\
  (forall labels1 labels2,
     outcome (vader_predicted_sentiments reviews1) = Ok labels1 ->
     outcome (vader_predicted_sentiments reviews2) = Ok labels2 ->
     labels1 !! i = labels2 !! i /\
     length labels1 = length reviews1 /\ length labels2 = length reviews2).
Proof.
  split; [|split].
  - intros labels1 labels2 (scores1 & Hs1 & ->)%textblob_pipeline_ok
      (scores2 & Hs2 & ->)%textblob_pipeline_ok.
    rewrite !length_fmap, (Forall2_length _ _ _ Hs1), (Forall2_length _ _ _ Hs2).
    split; [|done]. eapply labels_pointwise; [|done..]. apply TextBlob_polarity_fun.
  - intros afn labels1 labels2 (scores1 & Hs1 & ->)%afinn_pipeline_ok
      (scores2 & Hs2 & ->)%afinn_pipeline_ok.
    rewrite !length_fmap, (Forall2_length _ _ _ Hs1), (Forall2_length _ _ _ Hs2).
    split; [|done]. eapply labels_pointwise; [|done..]. apply Afinn_score_fun.
  - intros labels1 labels2 (scores1 & Hs1 & ->)%vader_pipeline_ok
      (scores2 & Hs2 & ->)%vader_pipeline_ok.
    rewrite !length_fmap, (Forall2_length _ _ _ Hs1), (Forall2_length _ _ _ Hs2).
    split; [|done]. eapply labels_pointwise; [|done..]. apply compound_score_unique.
Qed.

Lemma reviews_scored_independently_witness :
  (["negative"; "positive"] !! 1 = ["positive"; "positive"] !! 1 /\
   length ["negative"; "positive"] = length ["a bad movie"; "a good movie"] /\
   length ["positive"; "positive"] = length ["so good"; "a good movie"]) /\
  (["negative"; "negative"] !! 1 = ["negative"; "negative"] !! 1 /\
   length ["negative"; "negative"] = length ["a bad movie"; "a good movie"] /\
   length ["negative"; "negative"] = length ["so good"; "a good movie"]).
Proof.
  destruct (reviews_scored_independently (L := Toy.loaded_csv)
              ["a bad movie"; "a good movie"] ["so good"; "a good movie"] 1
              eq_refl eq_refl) as (HT & _ & HV).
  split.
  - apply HT; reflexivity.
  - apply HV; reflexivity.
Defined.

(** C5. The test split is the rows from index 35000 on: the i-th test
    review is the ['review'] cell of row 35000+i and the i-th test
    sentiment the ['sentiment'] cell of that same row, and a text that
    the evaluation hands to a scorer is always the review of such a
    row. *)
Theorem test_split_from_35000 `{L : Library}
    (dataset : frame) (reviews sentiments : list string)
    (Hreviews : DataFrame_getitem_values dataset "review" = Ok reviews)
    (Hsentiments : DataFrame_getitem_values dataset "sentiment" = Ok sentiments) :
  exists test_reviews test_sentiments,
    outcome (extract_test_data dataset) = Ok (test_reviews, test_sentiments) /\
    (forall i : Z, (0 <= i)%Z ->
       test_reviews !! Z.to_nat i = reviews !! Z.to_nat (35000 + i) /\
       test_sentiments !! Z.to_nat i = sentiments !! Z.to_nat (35000 + i)) /\
    length test_reviews = length reviews - Z.to_nat 35000 /\
    length test_sentiments = length sentiments - Z.to_nat 35000 /\
    (forall ev text,
       ev ∈ events (evaluate test_reviews test_sentiments) ->
       handed_over ev = Some text ->
       exists i : Z, (0 <= i)%Z /\ reviews !! Z.to_nat (35000 + i) = Some text).
Proof.
  exists (drop (Z.to_nat test_split_start) reviews),
         (drop (Z.to_nat test_split_start) sentiments).
  split; [by apply outcome_extract_test_data|].
  unfold test_split_start. split; [|split; [|split]].
  - intros i Hi. rewrite !lookup_drop, Z2Nat.inj_add by lia. done.
  - apply length_drop.
  - apply length_drop.
  - intros ev text Hev Hover.
    pose proof (evaluate_hands_over (drop (Z.to_nat 35000) reviews)
                  (drop (Z.to_nat 35000) sentiments)) as Hall.
    rewrite Forall_forall in Hall. specialize (Hall ev Hev text Hover).
    apply list_elem_of_lookup in Hall as [i Hi]. rewrite lookup_drop in Hi.
    exists (Z.of_nat i). split; [lia|].
    by rewrite Z2Nat.inj_add, Nat2Z.id by lia.
Qed.

Lemma test_split_from_35000_witness :
  exists test_reviews test_sentiments,
    outcome (extract_test_data (L := Toy.loaded_csv) Toy.movie_reviews)
      = Ok (test_reviews, test_sentiments) /\
    (forall i : Z, (0 <= i)%Z ->
       test_reviews !! Z.to_nat i
         = (replicate (Z.to_nat 35000) "filler" ++ ["a good movie<br />"; "a bad movie"])
             !! Z.to_nat (35000 + i) /\
       test_sentiments !! Z.to_nat i
         = (replicate (Z.to_nat 35000) "negative" ++ ["positive"; "negative"])
             !! Z.to_nat (35000 + i)) /\
    length test_reviews
      = length (replicate (Z.to_nat 35000) "filler" ++ ["a good movie<br />"; "a bad movie"])
        - Z.to_nat 35000 /\
    length test_sentiments
      = length (replicate (Z.to_nat 35000) "negative" ++ ["positive"; "negative"])
        - Z.to_nat 35000 /\
    (forall ev text,
       ev ∈ events (L := Toy.loaded_csv) (evaluate test_reviews test_sentiments) ->
       handed_over ev = Some text ->
       exists i : Z, (0 <= i)%Z /\
         (replicate (Z.to_nat 35000) "filler" ++ ["a good movie<br />"; "a bad movie"])
           !! Z.to_nat (35000 + i) = Some text).
Proof.
  apply (test_split_from_35000 (L := Toy.loaded_csv) Toy.movie_reviews); reflexivity.
Defined.

(** C7. Nothing in the notebook catches an exception.  In the whole run
    and in VADER's wrapper, a call that raises is the last thing that
    happens and its exception is the outcome; so a failure to load the
    CSV, the first review on which a scorer or a text helper raises, and
    a failing metrics report each end the computation with that very
    exception and no result. *)
Theorem exceptions_propagate_uncaught `{L : Library} :
  (forall fn args e,
     Called fn args (Some e) ∈ events notebook ->
     outcome notebook = Raise e /\
     last (events notebook) = Some (Called fn args (Some e))) /\
  (forall review threshold verbose fn args e,
     Called fn args (Some e)
       ∈ events (analyze_sentiment_vader_lexicon review threshold verbose) ->
     outcome (analyze_sentiment_vader_lexicon review threshold verbose) = Raise e /\
     last (events (analyze_sentiment_vader_lexicon review threshold verbose))
       = Some (Called fn args (Some e))) /\
  (forall e,
     pd_read_csv "movie_reviews.csv.bz2" "bz2" = Raise e ->
     outcome notebook = Raise e) /\
  (forall pre review post e,
     Forall (fun r => exists score, TextBlob_polarity r = Ok score) pre ->
     TextBlob_polarity review = Raise e ->
     outcome (textblob_pipeline (pre ++ review :: post)) = Raise e) /\
  (forall afn pre review post e,
     Forall (fun r => exists score, Afinn_score afn r = Ok score) pre ->
     Afinn_score afn review = Raise e ->
     outcome (afinn_pipeline afn (pre ++ review :: post)) = Raise e) /\
  (forall pre review post e,
     Forall (fun r => exists label,
               outcome (analyze_sentiment_vader_lexicon r (Some f_0_4) (Some false))
               = Ok label) pre ->
     outcome (analyze_sentiment_vader_lexicon review (Some f_0_4) (Some false)) = Raise e ->
     outcome (vader_predicted_sentiments (pre ++ review :: post)) = Raise e) /\
  (forall review threshold verbose e,
     outcome (strip_html_tags review) = Raise e ->
     outcome (analyze_sentiment_vader_lexicon review threshold verbose) = Raise e) /\
  (forall test_sentiments predicted_sentiments e,
     display_model_performance_metrics
       test_sentiments predicted_sentiments ["positive"; "negative"] = Raise e ->
     outcome (report test_sentiments predicted_sentiments) = Raise e).
Proof.
  split; [|split; [|split; [|split; [|split; [|split; [|split]]]]]].
  - intros fn args e. apply propagates_raised, propagates_notebook.
  - intros review threshold verbose fn args e.
    apply propagates_raised, propagates_analyze.
  - intros e He. unfold notebook, load_dataset.
    by rewrite !outcome_bind, outcome_call, He.
  - intros pre review post e Hpre He. unfold textblob_pipeline, textblob_sentiment_polarity.
    rewrite outcome_bind.
    by rewrite (list_comp_raise (fun r => textblob_polarity r) pre post review e).
  - intros afn pre review post e Hpre He. unfold afinn_pipeline, afinn_sentiment_polarity.
    rewrite outcome_bind.
    by rewrite (list_comp_raise (fun r => afinn_score afn r) pre post review e).
  - intros pre review post e Hpre He. unfold vader_predicted_sentiments.
    by apply list_comp_raise.
  - intros review threshold verbose e He. unfold analyze_sentiment_vader_lexicon.
    by rewrite outcome_bind, He.
  - intros test_sentiments predicted_sentiments e He. unfold report.
    by rewrite outcome_bind, outcome_call, He.
Qed.

Lemma exceptions_propagate_uncaught_witness :
  (outcome (L := Toy.missing_csv) notebook
     = Raise "FileNotFoundError: movie_reviews.csv.bz2" /\
   last (events (L := Toy.missing_csv) notebook)
     = Some (Called pd_read_csv_fn ["movie_reviews.csv.bz2"; "bz2"]
                    (Some "FileNotFoundError: movie_reviews.csv.bz2"))) /\
  (outcome (L := Toy.loaded_csv) (analyze_sentiment_vader_lexicon "" None None)
     = Raise "ValueError: empty text" /\
   last (events (L := Toy.loaded_csv) (analyze_sentiment_vader_lexicon "" None None))
     = Some (Called polarity_scores_fn [""] (Some "ValueError: empty text"))) /\
  outcome (L := Toy.missing_csv) notebook
    = Raise "FileNotFoundError: movie_reviews.csv.bz2" /\
  outcome (L := Toy.loaded_csv) (textblob_pipeline (["a good movie"] ++ "" :: ["a bad movie"]))
    = Raise "ValueError: empty text" /\
  outcome (L := Toy.loaded_csv)
          (vader_predicted_sentiments (["a good movie"] ++ "" :: ["a bad movie"]))
    = Raise "ValueError: empty text".
Proof.
  destruct (exceptions_propagate_uncaught (L := Toy.missing_csv))
    as (Hrun & _ & Hcsv & _).
  destruct (exceptions_propagate_uncaught (L := Toy.loaded_csv))
    as (_ & Hwrap & _ & HT & _ & HV & _).
  split; [|split; [|split; [|split]]].
  - apply Hrun. vm_compute. left.
  - apply Hwrap. vm_compute. do 9 right. left.
  - apply Hcsv. reflexivity.
  - apply HT; [|reflexivity]. repeat constructor. by exists Toy.f_0_25.
  - apply HV; [|reflexivity]. repeat constructor. by exists "negative".
Defined.

(** * Further properties of the cells *)

(** ** The sample loop *)

Section SampleLoop.
Context `{L : Library}.

Lemma take_indices_ok {A} (arr : list A) (ids : list Z) :
  Forall (fun i => is_Some (arr !! Z.to_nat i)) ids ->
  exists xs,
    take_indices arr ids = Ok xs /\
    Forall2 (fun i x => arr !! Z.to_nat i = Some x) ids xs.
Proof.
  induction 1 as [|i ids [x Hx] _ (xs & Hxs & Hall)]; simpl.
  - exists []. by split.
  - exists (x :: xs). rewrite Hx, Hxs. split; [done|by constructor].
Qed.

Lemma take_indices_raise {A} (arr : list A) (pre post : list Z) (i : Z) :
  Forall (fun j => is_Some (arr !! Z.to_nat j)) pre ->
  arr !! Z.to_nat i = None ->
  take_indices arr (pre ++ i :: post) = Raise (IndexError i).
Proof.
  intros Hpre Hi. induction Hpre as [|j pre [x Hx] _ IH]; simpl.
  - by rewrite Hi.
  - by rewrite Hx, IH.
Qed.

(** The three sample indices against the length of an array. *)
Lemma take_sample_ids {A} (arr : list A) :
  match take_indices arr sample_review_ids with
  | Ok xs =>
      (13010 < Z.of_nat (length arr))%Z /\
      exists x1 x2 x3,
        xs = [x1; x2; x3] /\
        arr !! Z.to_nat 7626 = Some x1 /\
        arr !! Z.to_nat 3533 = Some x2 /\
        arr !! Z.to_nat 13010 = Some x3
  | Raise e =>
      (Z.of_nat (length arr) <= 7626 /\ e = IndexError 7626)%Z \/
      (7626 < Z.of_nat (length arr) <= 13010 /\ e = IndexError 13010)%Z
  end.
Proof.
  unfold sample_review_ids. simpl.
  destruct (arr !! Z.to_nat 7626) as [x1|] eqn:H1.
  - destruct (arr !! Z.to_nat 3533) as [x2|] eqn:H2.
    + destruct (arr !! Z.to_nat 13010) as [x3|] eqn:H3.
      * apply lookup_lt_Some in H3. split; [lia|]. by exists x1, x2, x3.
      * apply lookup_lt_Some in H1. apply lookup_ge_None in H3. right. split; [lia|done].
    + apply lookup_lt_Some in H1. apply lookup_ge_None in H2. lia.
  - apply lookup_ge_None in H1. left. split; [lia|done].
Qed.

End SampleLoop.

Section SampleLoopRuns.
Context `{L : Library}.

Lemma sample_reviews_unfold test_reviews test_sentiments predict :
  sample_reviews test_reviews test_sentiments predict =
  (let* reviews := ndarray_getitem test_reviews sample_review_ids in
   let* sentiments := ndarray_getitem test_sentiments sample_review_ids in
   for_each (sample_body predict) (zip reviews sentiments)).
Proof. done. Qed.

Lemma outcome_ndarray_getitem {A} (arr : list A) ids :
  outcome (ndarray_getitem arr ids) = take_indices arr ids.
Proof. done. Qed.

Lemma events_ndarray_getitem {A} (arr : list A) ids :
  events (ndarray_getitem arr ids) =
  [Called ndarray_getitem_fn [] (raised_by (take_indices arr ids))].
Proof. done. Qed.

End SampleLoopRuns.

(** A test array too short for the sample indices stops the loop at once. *)
Lemma sample_reviews_short `{L : Library}
    (test_reviews test_sentiments : list string) (predict : string -> M unit)
    (Hshort : (Z.of_nat (length test_reviews) <= 13010 \/
               Z.of_nat (length test_sentiments) <= 13010)%Z) :
  let n := if (Z.of_nat (length test_reviews) <=? 13010)%Z
           then Z.of_nat (length test_reviews)
           else Z.of_nat (length test_sentiments) in
  outcome (sample_reviews test_reviews test_sentiments predict)
    = Raise (IndexError (if (n <=? 7626)%Z then 7626 else 13010)%Z) /\
  Forall (fun ev => exists raised, ev = Called ndarray_getitem_fn [] raised)
         (events (sample_reviews test_reviews test_sentiments predict)).
Proof.
  intros n. subst n. rewrite sample_reviews_unfold.
  rewrite outcome_bind, events_bind, outcome_ndarray_getitem, events_ndarray_getitem.
  pose proof (take_sample_ids test_reviews) as Hr.
  destruct (take_indices test_reviews sample_review_ids) as [reviews|e].
  - destruct Hr as [Hlong _].
    destruct (Z.leb_spec (Z.of_nat (length test_reviews)) 13010); [lia|].
    rewrite outcome_bind, events_bind, outcome_ndarray_getitem, events_ndarray_getitem.
    pose proof (take_sample_ids test_sentiments) as Hs.
    destruct (take_indices test_sentiments sample_review_ids) as [sentiments|e].
    + lia.
    + destruct Hs as [[Hn ->]|[Hn ->]].
      * destruct (Z.leb_spec (Z.of_nat (length test_sentiments)) 7626); [|lia].
        split; [done|]. repeat constructor; by eexists.
      * destruct (Z.leb_spec (Z.of_nat (length test_sentiments)) 7626); [lia|].
        split; [done|]. repeat constructor; by eexists.
  - destruct Hr as [[Hn ->]|[Hn ->]].
    + destruct (Z.leb_spec (Z.of_nat (length test_reviews)) 13010); [|lia].
      destruct (Z.leb_spec (Z.of_nat (length test_reviews)) 7626); [|lia].
      split; [done|]. repeat constructor; by eexists.
    + destruct (Z.leb_spec (Z.of_nat (length test_reviews)) 13010); [|lia].
      destruct (Z.leb_spec (Z.of_nat (length test_reviews)) 7626); [lia|].
      split; [done|]. repeat constructor; by eexists.
Qed.

(** X1. The sample loop indexes both test arrays with 7626, 3533 and
    13010 before it does anything else: when one of them has at most
    13010 entries the loop raises the [IndexError] of the first index out
    of range, and neither a print nor a prediction has happened. *)
Theorem sample_loop_index_error `{L : Library}
    (test_reviews test_sentiments : list string) (predict : string -> M unit)
    (Hshort : (Z.of_nat (length test_reviews) <= 13010 \/
               Z.of_nat (length test_sentiments) <= 13010)%Z) :
  let n := if (Z.of_nat (length test_reviews) <=? 13010)%Z
           then Z.of_nat (length test_reviews)
           else Z.of_nat (length test_sentiments) in
  outcome (sample_reviews test_reviews test_sentiments predict)
    = Raise (IndexError (if (n <=? 7626)%Z then 7626 else 13010)%Z) /\
  Forall (fun ev => exists raised, ev = Called ndarray_getitem_fn [] raised)
         (events (sample_reviews test_reviews test_sentiments predict)).
Proof. by apply sample_reviews_short. Qed.

Lemma sample_loop_index_error_witness :
  outcome (L := Toy.loaded_csv)
          (sample_reviews ["a good movie"; "a bad movie"] ["positive"; "negative"]
                          (fun _ => ret tt))
    = Raise "IndexError: index out of bounds" /\
  Forall (fun ev : event string => exists raised, ev = Called ndarray_getitem_fn [] raised)
         (events (L := Toy.loaded_csv)
                 (sample_reviews ["a good movie"; "a bad movie"] ["positive"; "negative"]
                                 (fun _ => ret tt))).
Proof.
  apply (sample_loop_index_error (L := Toy.loaded_csv)
           ["a good movie"; "a bad movie"] ["positive"; "negative"] (fun _ => ret tt)).
  left. vm_compute. discriminate.
Defined.

(** X2. When both test arrays have more than 13010 entries, the sample
    loop runs its body on three rows, 7626, 3533 and 13010 of the test
    split in this order, each review with the sentiment of its own row. *)
Theorem sample_loop_rows `{L : Library}
    (test_reviews test_sentiments : list string) (predict : string -> M unit)
    (Hreviews : (13010 < Z.of_nat (length test_reviews))%Z)
    (Hsentiments : (13010 < Z.of_nat (length test_sentiments))%Z) :
  exists r1 r2 r3 s1 s2 s3,
    test_reviews !! Z.to_nat 7626 = Some r1 /\
    test_sentiments !! Z.to_nat 7626 = Some s1 /\
    test_reviews !! Z.to_nat 3533 = Some r2 /\
    test_sentiments !! Z.to_nat 3533 = Some s2 /\
    test_reviews !! Z.to_nat 13010 = Some r3 /\
    test_sentiments !! Z.to_nat 13010 = Some s3 /\
    outcome (sample_reviews test_reviews test_sentiments predict)
      = outcome (for_each (sample_body predict) [(r1, s1); (r2, s2); (r3, s3)]) /\
    events (sample_reviews test_reviews test_sentiments predict)
      = Called ndarray_getitem_fn [] None :: Called ndarray_getitem_fn [] None ::
        events (for_each (sample_body predict) [(r1, s1); (r2, s2); (r3, s3)]).
Proof.
  rewrite sample_reviews_unfold.
  rewrite outcome_bind, events_bind, outcome_ndarray_getitem, events_ndarray_getitem.
  pose proof (take_sample_ids test_reviews) as Hr.
  destruct (take_indices test_reviews sample_review_ids) as [reviews|e]; [|lia].
  destruct Hr as (_ & r1 & r2 & r3 & -> & Hr1 & Hr2 & Hr3).
  rewrite outcome_bind, events_bind, outcome_ndarray_getitem, events_ndarray_getitem.
  pose proof (take_sample_ids test_sentiments) as Hs.
  destruct (take_indices test_sentiments sample_review_ids) as [sentiments|e]; [|lia].
  destruct Hs as (_ & s1 & s2 & s3 & -> & Hs1 & Hs2 & Hs3).
  by exists r1, r2, r3, s1, s2, s3.
Qed.

Lemma sample_loop_rows_witness :
  exists r1 r2 r3 s1 s2 s3,
    ToyData.many_reviews !! Z.to_nat 7626 = Some r1 /\
    ToyData.many_sentiments !! Z.to_nat 7626 = Some s1 /\
    ToyData.many_reviews !! Z.to_nat 3533 = Some r2 /\
    ToyData.many_sentiments !! Z.to_nat 3533 = Some s2 /\
    ToyData.many_reviews !! Z.to_nat 13010 = Some r3 /\
    ToyData.many_sentiments !! Z.to_nat 13010 = Some s3 /\
    outcome (L := Toy.loaded_csv)
            (sample_reviews ToyData.many_reviews ToyData.many_sentiments (fun _ => ret tt))
      = outcome (for_each (sample_body (fun _ => ret tt)) [(r1, s1); (r2, s2); (r3, s3)]) /\
    events (L := Toy.loaded_csv)
           (sample_reviews ToyData.many_reviews ToyData.many_sentiments (fun _ => ret tt))
      = Called ndarray_getitem_fn [] None :: Called ndarray_getitem_fn [] None ::
        events (for_each (sample_body (fun _ => ret tt)) [(r1, s1); (r2, s2); (r3, s3)]).
Proof.
  apply (sample_loop_rows (L := Toy.loaded_csv)
           ToyData.many_reviews ToyData.many_sentiments (fun _ => ret tt)).
  - unfold ToyData.many_reviews. rewrite length_replicate. lia.
  - unfold ToyData.many_sentiments. rewrite length_replicate. lia.
Defined.

(** ** What has to go well before a review is scored *)

Section BeforeScoring.
Context `{L : Library}.

Lemma load_dataset_ok dataset :
  outcome load_dataset = Ok dataset ->
  pd_read_csv "movie_reviews.csv.bz2" "bz2" = Ok dataset /\
  exists lines, DataFrame_info dataset = Ok lines.
Proof.
  unfold load_dataset. rewrite outcome_bind, outcome_call.
  destruct (pd_read_csv _ _) as [d|e]; [|done].
  rewrite outcome_bind, outcome_call.
  destruct (DataFrame_info d) as [lines|e] eqn:Hinfo; [|done].
  rewrite outcome_bind. unfold print at 1. unfold outcome at 1. simpl.
  rewrite outcome_ret. intros [= <-]. split; [done|by exists lines].
Qed.

Lemma test_column_ok dataset col values :
  outcome (test_column dataset col) = Ok values ->
  exists column,
    DataFrame_getitem_values dataset col = Ok column /\
    values = drop (Z.to_nat test_split_start) column.
Proof.
  unfold test_column. rewrite outcome_bind, outcome_call.
  destruct (DataFrame_getitem_values dataset col) as [column|e]; [|done].
  rewrite outcome_ret. intros [= <-]. by exists column.
Qed.

Lemma extract_test_data_ok dataset split :
  outcome (extract_test_data dataset) = Ok split ->
  exists reviews sentiments,
    DataFrame_getitem_values dataset "review" = Ok reviews /\
    DataFrame_getitem_values dataset "sentiment" = Ok sentiments /\
    split = (drop (Z.to_nat test_split_start) reviews,
             drop (Z.to_nat test_split_start) sentiments).
Proof.
  unfold extract_test_data. rewrite outcome_bind.
  destruct (outcome (test_column dataset "review")) as [tr|e] eqn:Hr; [|done].
  rewrite outcome_bind.
  destruct (outcome (test_column dataset "sentiment")) as [ts|e] eqn:Hs; [|done].
  rewrite outcome_ret. intros [= <-].
  apply test_column_ok in Hr as (reviews & Hr & ->).
  apply test_column_ok in Hs as (sentiments & Hs & ->).
  by exists reviews, sentiments.
Qed.

Lemma load_dataset_hands_over_nothing :
  Forall hands_over_nothing (events load_dataset).
Proof.
  unfold load_dataset.
  apply Forall_events_bind; [by apply Forall_events_call|intros dataset _].
  apply Forall_events_bind; [by apply Forall_events_call|intros lines _].
  apply Forall_events_bind; [by apply Forall_events_print|intros _ _].
  apply Forall_events_ret.
Qed.

Lemma extract_test_data_hands_over_nothing dataset :
  Forall hands_over_nothing (events (extract_test_data dataset)).
Proof.
  unfold extract_test_data, test_column.
  apply Forall_events_bind; [|intros test_reviews _].
  { apply Forall_events_bind; [by apply Forall_events_call|].
    intros; apply Forall_events_ret. }
  apply Forall_events_bind; [|intros; apply Forall_events_ret].
  apply Forall_events_bind; [by apply Forall_events_call|].
  intros; apply Forall_events_ret.
Qed.

(** With a test split too short for the sample indices, the evaluation
    ends in its first cell and no scorer has seen a text. *)
Lemma evaluate_short test_reviews test_sentiments :
  (Z.of_nat (length test_reviews) <= 13010 \/
   Z.of_nat (length test_sentiments) <= 13010)%Z ->
  (exists i, outcome (evaluate test_reviews test_sentiments) = Raise (IndexError i)) /\
  Forall hands_over_nothing (events (evaluate test_reviews test_sentiments)).
Proof.
  intros Hshort. unfold evaluate, textblob_samples.
  rewrite outcome_bind, events_bind.
  destruct (sample_reviews_short test_reviews test_sentiments
              (fun review =>
                 let* polarity := textblob_polarity review in
                 print ["Predicted Sentiment polarity:"; py_str polarity]) Hshort)
    as [Hout Hev].
  rewrite Hout, (right_id_L [] (++)). split; [by eexists|].
  eapply Forall_impl; [exact Hev|]. by intros ev [raised ->].
Qed.

Lemma drop_short {A} (l : list A) (n : nat) (k : Z) :
  (0 <= k)%Z ->
  (k < Z.of_nat (length (drop n l)))%Z -> (Z.of_nat n + k < Z.of_nat (length l))%Z.
Proof. rewrite length_drop. lia. Qed.

(** A text reaches a scorer only after the CSV was read, both columns
    were found and each has more than 35000 + 13010 rows; and the text
    is the review of a row from 35000 on. *)
Lemma notebook_hands_over (ev : event exn) (text : string) :
  ev ∈ events notebook ->
  handed_over ev = Some text ->
  exists dataset lines reviews sentiments (i : Z),
    pd_read_csv "movie_reviews.csv.bz2" "bz2" = Ok dataset /\
    DataFrame_info dataset = Ok lines /\
    DataFrame_getitem_values dataset "review" = Ok reviews /\
    DataFrame_getitem_values dataset "sentiment" = Ok sentiments /\
    (48010 < Z.of_nat (length reviews))%Z /\
    (48010 < Z.of_nat (length sentiments))%Z /\
    (0 <= i)%Z /\
    reviews !! Z.to_nat (35000 + i) = Some text.
Proof.
  intros Hev Hover. unfold notebook in Hev.
  rewrite events_bind in Hev. apply elem_of_app in Hev as [Hev|Hev].
  { pose proof load_dataset_hands_over_nothing as Hnone.
    rewrite Forall_forall in Hnone. specialize (Hnone ev Hev).
    unfold hands_over_nothing in Hnone. congruence. }
  destruct (outcome load_dataset) as [dataset|e] eqn:Hload;
    [|by apply elem_of_nil in Hev].
  apply load_dataset_ok in Hload as (Hcsv & lines & Hinfo).
  rewrite events_bind in Hev. apply elem_of_app in Hev as [Hev|Hev].
  { pose proof (extract_test_data_hands_over_nothing dataset) as Hnone.
    rewrite Forall_forall in Hnone. specialize (Hnone ev Hev).
    unfold hands_over_nothing in Hnone. congruence. }
  destruct (outcome (extract_test_data dataset)) as [split|e] eqn:Hsplit;
    [|by apply elem_of_nil in Hev].
  apply extract_test_data_ok in Hsplit as (reviews & sentiments & Hr & Hs & ->).
  simpl in Hev. unfold test_split_start in Hev.
  exists dataset, lines, reviews, sentiments.
  assert (13010 < Z.of_nat (length (drop (Z.to_nat 35000) reviews)) /\
          13010 < Z.of_nat (length (drop (Z.to_nat 35000) sentiments)))%Z as [Hlr Hls].
  { destruct (Z.le_gt_cases (Z.of_nat (length (drop (Z.to_nat 35000) reviews))) 13010)
      as [Hshort|Hlong].
    - destruct (evaluate_short (drop (Z.to_nat 35000) reviews)
                  (drop (Z.to_nat 35000) sentiments)) as [_ Hnone]; [by left|].
      rewrite Forall_forall in Hnone. specialize (Hnone ev Hev).
      unfold hands_over_nothing in Hnone. congruence.
    - destruct (Z.le_gt_cases (Z.of_nat (length (drop (Z.to_nat 35000) sentiments))) 13010)
        as [Hshort|Hlong'].
      + destruct (evaluate_short (drop (Z.to_nat 35000) reviews)
                    (drop (Z.to_nat 35000) sentiments)) as [_ Hnone]; [by right|].
        rewrite Forall_forall in Hnone. specialize (Hnone ev Hev).
        unfold hands_over_nothing in Hnone. congruence.
      + lia. }
  apply drop_short in Hlr, Hls; [|lia..].
  pose proof (evaluate_hands_over (drop (Z.to_nat 35000) reviews)
                (drop (Z.to_nat 35000) sentiments)) as Hall.
  rewrite Forall_forall in Hall. specialize (Hall ev Hev text Hover).
  apply list_elem_of_lookup in Hall as [i Hi]. rewrite lookup_drop in Hi.
  exists (Z.of_nat i).
  split; [done|]. split; [done|]. split; [done|]. split; [done|].
  split; [lia|]. split; [lia|]. split; [lia|].
  by rewrite Z2Nat.inj_add, Nat2Z.id by lia.
Qed.

End BeforeScoring.

Lemma elem_of_events_bind_l `{L : Library} {A B} (m : M A) (k : A -> M B) ev :
  ev ∈ events m -> ev ∈ events (bind m k).
Proof. intros Hev. rewrite events_bind. apply elem_of_app. by left. Qed.

Lemma elem_of_events_bind_r `{L : Library} {A B} (m : M A) (k : A -> M B) a ev :
  outcome m = Ok a -> ev ∈ events (k a) -> ev ∈ events (bind m k).
Proof. intros Ha Hev. rewrite events_bind, Ha. apply elem_of_app. by right. Qed.

(** X3. In a run of the whole notebook a text reaches TextBlob, the AFINN
    scorer or the wrapper's HTML parser only if the CSV was read, both
    columns exist and have more than 48010 rows, and that text is the
    review of a row from 35000 on; in every other case the run ends
    before any review is scored. *)
Theorem notebook_scores_only_loaded_test_rows `{L : Library}
    (ev : event exn) (text : string)
    (Hev : ev ∈ events notebook)
    (Hover : handed_over ev = Some text) :
  exists dataset lines reviews sentiments (i : Z),
    pd_read_csv "movie_reviews.csv.bz2" "bz2" = Ok dataset /\
    DataFrame_info dataset = Ok lines /\
    DataFrame_getitem_values dataset "review" = Ok reviews /\
    DataFrame_getitem_values dataset "sentiment" = Ok sentiments /\
    (48010 < Z.of_nat (length reviews))%Z /\
    (48010 < Z.of_nat (length sentiments))%Z /\
    (0 <= i)%Z /\
    reviews !! Z.to_nat (35000 + i) = Some text.
Proof. exact (notebook_hands_over ev text Hev Hover). Qed.

Lemma notebook_scores_only_loaded_test_rows_witness :
  exists (dataset : @frame ToyData.long_csv) lines reviews sentiments (i : Z),
    @pd_read_csv ToyData.long_csv "movie_reviews.csv.bz2" "bz2" = Ok dataset /\
    @DataFrame_info ToyData.long_csv dataset = Ok lines /\
    @DataFrame_getitem_values ToyData.long_csv dataset "review" = Ok reviews /\
    @DataFrame_getitem_values ToyData.long_csv dataset "sentiment" = Ok sentiments /\
    (48010 < Z.of_nat (length reviews))%Z /\
    (48010 < Z.of_nat (length sentiments))%Z /\
    (0 <= i)%Z /\
    reviews !! Z.to_nat (35000 + i) = Some "a good movie".
Proof.
  apply (notebook_scores_only_loaded_test_rows (L := ToyData.long_csv)
           (Called TextBlob_polarity_fn ["a good movie"] None) "a good movie");
    [|reflexivity].
  unfold notebook.
  apply (elem_of_events_bind_r _ _ ToyData.long_reviews); [reflexivity|].
  apply (elem_of_events_bind_r _ _ (ToyData.many_reviews, ToyData.many_sentiments));
    [by vm_compute|].
  apply elem_of_events_bind_l.
  vm_compute. do 4 right. left.
Defined.

(** ** The wrapper, verbose and not *)

Section Verbose.
Context `{L : Library}.

Lemma bind_ok_inv {A B} (m : M A) (k : A -> M B) (b : B) :
  outcome (bind m k) = Ok b ->
  exists a,
    outcome m = Ok a /\ outcome (k a) = Ok b /\
    events (bind m k) = events m ++ events (k a).
Proof.
  rewrite outcome_bind, events_bind. destruct (outcome m) as [a|e]; [|done].
  intros Hb. by exists a.
Qed.

Lemma printed_app (t1 t2 : trace) : printed (t1 ++ t2) = printed t1 ++ printed t2.
Proof. apply omap_app. Qed.

Lemma printed_none (t : trace) :
  Forall (fun ev => forall args, ev <> Printed args) t -> printed t = [].
Proof.
  induction 1 as [|ev t Hev _ IH]; [done|].
  destruct ev as [args|fn args o]; [by destruct (Hev args)|exact IH].
Qed.

Lemma elem_of_wrapper_calls fn :
  bool_decide (fn ∈ wrapper_calls) = true -> fn ∈ wrapper_calls.
Proof. apply bool_decide_eq_true_1. Qed.

(** Every event of the wrapper is a call to one of [wrapper_calls], or,
    when the call is verbose, a frame-building call or a print. *)
Lemma Forall_events_analyze (P : event exn -> Prop) review threshold verbose :
  (forall fn args o, fn ∈ wrapper_calls -> P (Called fn args o)) ->
  (default verbose_default verbose = true ->
   (forall fn args o, fn ∈ frame_building -> P (Called fn args o)) /\
   (forall args, P (Printed args))) ->
  Forall P (events (analyze_sentiment_vader_lexicon review threshold verbose)).
Proof.
  intros Hquiet Hverbose.
  assert (forall fn args o, bool_decide (fn ∈ wrapper_calls) = true ->
            P (Called fn args o)) as Hq.
  { intros fn args o Hfn. by apply Hquiet, elem_of_wrapper_calls. }
  unfold analyze_sentiment_vader_lexicon, strip_html_tags, remove_accented_chars,
    expand_contractions, dict_getitem.
  destruct (default verbose_default verbose).
  - destruct Hverbose as [Hframe Hprint]; [done|].
    assert (forall fn args o, bool_decide (fn ∈ frame_building) = true ->
              P (Called fn args o)) as Hf.
    { intros fn args o Hfn. apply Hframe. exact (bool_decide_eq_true_1 _ Hfn). }
    repeat first
      [ apply Forall_events_ret
      | apply Forall_events_print; apply Hprint
      | apply Forall_events_call; first [by apply Hq | by apply Hf]
      | apply Forall_events_extract_all; intros ?; by apply Hq
      | apply Forall_events_bind; [|intros ? ?] ].
  - repeat first
      [ apply Forall_events_ret
      | apply Forall_events_call; by apply Hq
      | apply Forall_events_extract_all; intros ?; by apply Hq
      | apply Forall_events_bind; [|intros ? ?] ].
Qed.

Lemma analyze_quiet_shows_nothing review threshold verbose :
  default verbose_default verbose = false ->
  Forall shows_nothing (events (analyze_sentiment_vader_lexicon review threshold verbose)).
Proof.
  intros Hv. apply Forall_events_analyze.
  - intros fn args o Hfn. simpl. unfold frame_building, wrapper_calls in *.
    rewrite !elem_of_cons, elem_of_nil in Hfn. rewrite !not_elem_of_cons.
    repeat split; try apply not_elem_of_nil;
      intros ->; repeat (destruct Hfn as [Hfn|Hfn]; try done).
  - by rewrite Hv.
Qed.

Lemma printed_helpers :
  (forall text, printed (events (strip_html_tags text)) = []) /\
  (forall text, printed (events (remove_accented_chars text)) = []) /\
  (forall text, printed (events (expand_contractions text)) = []).
Proof.
  split; [|split]; intros text; apply printed_none.
  - unfold strip_html_tags.
    repeat first
      [ apply Forall_events_ret
      | apply Forall_events_call; done
      | apply Forall_events_extract_all; done
      | apply Forall_events_bind; [|intros ? ?] ].
  - unfold remove_accented_chars.
    repeat first
      [ apply Forall_events_ret
      | apply Forall_events_call; done
      | apply Forall_events_bind; [|intros ? ?] ].
  - unfold expand_contractions. by apply Forall_events_call.
Qed.

(** A verbose call that returns has printed one thing, the frame. *)
Lemma printed_analyze_verbose review threshold label :
  outcome (analyze_sentiment_vader_lexicon review threshold (Some true)) = Ok label ->
  exists sentiment_frame text,
    DataFrame_str sentiment_frame = Ok text /\
    printed (events (analyze_sentiment_vader_lexicon review threshold (Some true)))
      = [[text]].
Proof.
  destruct printed_helpers as (Pstrip & Premove & Pexpand).
  unfold analyze_sentiment_vader_lexicon. simpl default. intros Hrun.
  apply bind_ok_inv in Hrun as (t1 & _ & Hrun & ->).
  apply bind_ok_inv in Hrun as (t2 & _ & Hrun & ->).
  apply bind_ok_inv in Hrun as (t3 & _ & Hrun & ->).
  apply bind_ok_inv in Hrun as (an & _ & Hrun & ->).
  apply bind_ok_inv in Hrun as (scores & _ & Hrun & ->).
  apply bind_ok_inv in Hrun as (agg_score & _ & Hrun & ->).
  apply bind_ok_inv in Hrun as ([] & Hrun & _ & ->).
  apply bind_ok_inv in Hrun as (pos & _ & Hrun & ->).
  apply bind_ok_inv in Hrun as (neg & _ & Hrun & ->).
  apply bind_ok_inv in Hrun as (neu & _ & Hrun & ->).
  apply bind_ok_inv in Hrun as (columns & _ & Hrun & ->).
  apply bind_ok_inv in Hrun as (sentiment_frame & _ & Hrun & ->).
  apply bind_ok_inv in Hrun as (text & Htext & _ & ->).
  exists sentiment_frame, text. split; [done|].
  rewrite !printed_app, Pstrip, Premove, Pexpand. done.
Qed.

End Verbose.

(** X4. [verbose] only adds output.  A verbose call that returns a label
    means the plain call returns the same label; a call that is not
    verbose prints nothing and builds no frame; a verbose call that
    returns has printed exactly one thing, the text of its frame. *)
Theorem verbose_only_adds_output `{L : Library} (review : string) (threshold : option float) :
  (forall label,
     outcome (analyze_sentiment_vader_lexicon review threshold (Some true)) = Ok label ->
     outcome (analyze_sentiment_vader_lexicon review threshold (Some false)) = Ok label /\
     outcome (analyze_sentiment_vader_lexicon review threshold None) = Ok label) /\
  (forall verbose,
     default verbose_default verbose = false ->
     Forall shows_nothing
            (events (analyze_sentiment_vader_lexicon review threshold verbose))) /\
  (forall label,
     outcome (analyze_sentiment_vader_lexicon review threshold (Some true)) = Ok label ->
     exists sentiment_frame text,
       DataFrame_str sentiment_frame = Ok text /\
       printed (events (analyze_sentiment_vader_lexicon review threshold (Some true)))
         = [[text]]).
Proof.
  split; [|split].
  - intros label (score & Hscore & ->)%analyze_ok.
    split; by apply analyze_quiet.
  - intros verbose Hv. by apply analyze_quiet_shows_nothing.
  - intros label Hrun. by eapply printed_analyze_verbose.
Qed.

Lemma verbose_only_adds_output_witness :
  (outcome (L := Toy.loaded_csv)
           (analyze_sentiment_vader_lexicon "a good movie" (Some f_0_4) (Some false))
     = Ok "negative" /\
   outcome (L := Toy.loaded_csv)
           (analyze_sentiment_vader_lexicon "a good movie" (Some f_0_4) None)
     = Ok "negative") /\
  Forall (shows_nothing (L := Toy.loaded_csv))
         (events (L := Toy.loaded_csv)
                 (analyze_sentiment_vader_lexicon "a good movie" (Some f_0_4) None)) /\
  (exists (sentiment_frame : @frame Toy.loaded_csv) text,
     @DataFrame_str Toy.loaded_csv sentiment_frame = Ok text /\
     printed (events (L := Toy.loaded_csv)
                (analyze_sentiment_vader_lexicon "a good movie" (Some f_0_4) (Some true)))
       = [[text]]).
Proof.
  destruct (verbose_only_adds_output (L := Toy.loaded_csv) "a good movie" (Some f_0_4))
    as (Hsame & Hquiet & Hprint).
  split; [|split].
  - apply Hsame. reflexivity.
  - apply Hquiet. reflexivity.
  - apply (Hprint "negative"). reflexivity.
Defined.

(** X5. What the wrapper does when the dict of scores lacks an entry.
    Without ['compound'] every call raises [KeyError('compound')].  With
    it, the plain call returns its label whatever else is missing, while
    the verbose call raises the [KeyError] of the first of ['pos'],
    ['neg'], ['neu'] that is absent. *)
Theorem missing_score_entries `{L : Library}
    (review text : string) (an : analyzer) (scores : gmap string float)
    (Htext : preprocessed review text)
    (Han : SentimentIntensityAnalyzer = Ok an)
    (Hscores : polarity_scores an text = Ok scores) :
  (scores !! "compound" = None ->
   forall threshold verbose,
     outcome (analyze_sentiment_vader_lexicon review threshold verbose)
       = Raise (KeyError "compound")) /\
  (forall agg_score threshold,
     scores !! "compound" = Some agg_score ->
     outcome (analyze_sentiment_vader_lexicon review threshold (Some false))
       = Ok (threshold_label (default threshold_default threshold) agg_score) /\
     (scores !! "pos" = None ->
      outcome (analyze_sentiment_vader_lexicon review threshold (Some true))
        = Raise (KeyError "pos")) /\
     (is_Some (scores !! "pos") -> scores !! "neg" = None ->
      outcome (analyze_sentiment_vader_lexicon review threshold (Some true))
        = Raise (KeyError "neg")) /\
     (is_Some (scores !! "pos") -> is_Some (scores !! "neg") ->
      scores !! "neu" = None ->
      outcome (analyze_sentiment_vader_lexicon review threshold (Some true))
        = Raise (KeyError "neu"))).
Proof.
  destruct Htext as (t1 & t2 & H1 & H2 & H3).
  assert (forall threshold verbose,
            outcome (analyze_sentiment_vader_lexicon review threshold verbose) =
            outcome
              (let* agg_score := dict_getitem scores "compound" in
               let final_sentiment :=
                 if geb agg_score (default threshold_default threshold)
                 then "positive" else "negative" in
               do* (if default verbose_default verbose then
                      let* pos := dict_getitem scores "pos" in
                      let* neg := dict_getitem scores "neg" in
                      let* neu := dict_getitem scores "neu" in
                      let* columns := call pd_MultiIndex_fn []
                        (pd_MultiIndex
                           [["SENTIMENT STATS:"];
                            ["Predicted Sentiment"; "Polarity Score"; "Positive";
                             "Negative"; "Neutral"]]
                           [[0; 0; 0; 0; 0]; [0; 1; 2; 3; 4]]%Z) in
                      let* sentiment_frame := call pd_DataFrame_fn []
                        (pd_DataFrame
                           [[VStr final_sentiment; VFloat (py_round agg_score 2);
                             VStr (percent pos); VStr (percent neg);
                             VStr (percent neu)]] columns) in
                      let* text := call DataFrame_str_fn [] (DataFrame_str sentiment_frame) in
                      print [text]
                    else ret tt) in
               ret final_sentiment)) as Htail.
  { intros threshold verbose. unfold analyze_sentiment_vader_lexicon.
    rewrite outcome_bind, H1, outcome_bind, H2, outcome_bind, H3.
    by rewrite outcome_bind, outcome_call, Han, outcome_bind, outcome_call, Hscores. }
  split.
  - intros Hc threshold verbose.
    by rewrite Htail, outcome_bind, outcome_dict_getitem, Hc.
  - intros agg_score threshold Hc. split; [|split; [|split]].
    + rewrite Htail, outcome_bind, outcome_dict_getitem, Hc. simpl.
      by rewrite outcome_bind, !outcome_ret.
    + intros Hpos. rewrite Htail, outcome_bind, outcome_dict_getitem, Hc. simpl.
      by rewrite !outcome_bind, outcome_dict_getitem, Hpos.
    + intros [pos Hpos] Hneg.
      rewrite Htail, outcome_bind, outcome_dict_getitem, Hc. simpl.
      rewrite !outcome_bind, outcome_dict_getitem, Hpos.
      by rewrite outcome_bind, outcome_dict_getitem, Hneg.
    + intros [pos Hpos] [neg Hneg] Hneu.
      rewrite Htail, outcome_bind, outcome_dict_getitem, Hc. simpl.
      rewrite !outcome_bind, outcome_dict_getitem, Hpos.
      rewrite outcome_bind, outcome_dict_getitem, Hneg.
      by rewrite outcome_bind, outcome_dict_getitem, Hneu.
Qed.

Lemma missing_score_entries_witness :
  outcome (L := ToyData.with_scores ToyData.no_compound)
          (analyze_sentiment_vader_lexicon "a good movie" None None)
    = Raise "KeyError: compound" /\
  outcome (L := ToyData.with_scores ToyData.compound_only)
          (analyze_sentiment_vader_lexicon "a good movie" None (Some false))
    = Ok "positive" /\
  outcome (L := ToyData.with_scores ToyData.compound_only)
          (analyze_sentiment_vader_lexicon "a good movie" None (Some true))
    = Raise "KeyError: pos".
Proof.
  assert (preprocessed (L := ToyData.with_scores ToyData.no_compound)
            "a good movie" "a good movie") as Hpre1.
  { by exists "a good movie", "a good movie". }
  assert (preprocessed (L := ToyData.with_scores ToyData.compound_only)
            "a good movie" "a good movie") as Hpre2.
  { by exists "a good movie", "a good movie". }
  destruct (missing_score_entries (L := ToyData.with_scores ToyData.no_compound)
              "a good movie" "a good movie" tt (<["pos" := Toy.f_0_25]> ∅)
              Hpre1 eq_refl eq_refl) as [Hnone _].
  destruct (missing_score_entries (L := ToyData.with_scores ToyData.compound_only)
              "a good movie" "a good movie" tt (<["compound" := Toy.f_0_25]> ∅)
              Hpre2 eq_refl eq_refl) as [_ Hsome].
  destruct (Hsome Toy.f_0_25 None) as (Hplain & Hpos & _); [by vm_compute|].
  split; [|split].
  - apply Hnone. by vm_compute.
  - exact Hplain.
  - apply Hpos. by vm_compute.
Defined.

(** ** How often the scorers are built *)

Section Construction.
Context `{L : Library}.

Lemma helpers_call_among :
  (forall text, Forall (call_among helper_calls) (events (strip_html_tags text))) /\
  (forall text, Forall (call_among helper_calls) (events (remove_accented_chars text))) /\
  (forall text, Forall (call_among helper_calls) (events (expand_contractions text))).
Proof.
  assert (forall fn args o, bool_decide (fn ∈ helper_calls) = true ->
            call_among helper_calls (Called fn args o)) as Hc.
  { intros fn args o Hfn. exact (bool_decide_eq_true_1 _ Hfn). }
  split; [|split]; intros text.
  - unfold strip_html_tags.
    repeat first
      [ apply Forall_events_ret
      | apply Forall_events_call; by apply Hc
      | apply Forall_events_extract_all; intros ?; by apply Hc
      | apply Forall_events_bind; [|intros ? ?] ].
  - unfold remove_accented_chars.
    repeat first
      [ apply Forall_events_ret
      | apply Forall_events_call; by apply Hc
      | apply Forall_events_bind; [|intros ? ?] ].
  - unfold expand_contractions. apply Forall_events_call. by apply Hc.
Qed.

Lemma calls_to_call_among fn fns (t : trace) :
  fn ∉ fns -> Forall (call_among fns) t -> calls_to fn t = [].
Proof.
  intros Hfn Ht. apply calls_to_none. eapply Forall_impl; [exact Ht|].
  intros [args|fn' args o]; simpl; [done|]. by intros Hin ->.
Qed.

(** A call of the wrapper that returns has built one analyzer. *)
Lemma analyze_builds_one review threshold verbose label :
  outcome (analyze_sentiment_vader_lexicon review threshold verbose) = Ok label ->
  calls_to SentimentIntensityAnalyzer_fn
    (events (analyze_sentiment_vader_lexicon review threshold verbose)) = [[]].
Proof.
  intros Hrun.
  destruct helpers_call_among as (Hstrip & Hremove & Hexpand).
  assert (SentimentIntensityAnalyzer_fn ∉ helper_calls) as Hnot.
  { apply (bool_decide_eq_false_1 _). reflexivity. }
  revert Hrun. unfold analyze_sentiment_vader_lexicon. intros Hrun.
  apply bind_ok_inv in Hrun as (t1 & _ & Hrun & ->).
  apply bind_ok_inv in Hrun as (t2 & _ & Hrun & ->).
  apply bind_ok_inv in Hrun as (t3 & _ & Hrun & ->).
  apply bind_ok_inv in Hrun as (an & Han & Hrun & ->).
  rewrite outcome_call in Han.
  rewrite !calls_to_app.
  rewrite (calls_to_call_among _ _ _ Hnot (Hstrip review)).
  rewrite (calls_to_call_among _ _ _ Hnot (Hremove t1)).
  rewrite (calls_to_call_among _ _ _ Hnot (Hexpand t2)).
  rewrite events_call, calls_to_cons, bool_decide_eq_true_2 by done.
  change (calls_to SentimentIntensityAnalyzer_fn []) with (@nil (list string)).
  simpl. f_equal. apply calls_to_none. clear Hrun.
  unfold dict_getitem.
  repeat first
    [ apply Forall_events_ret
    | apply Forall_events_print; done
    | apply Forall_events_call; done
    | apply Forall_events_bind; [|intros ? ?]
    | match goal with |- context [if ?b then _ else _] => destruct b end ].
Qed.

End Construction.

Section ConstructionCounts.
Context `{L : Library}.

Lemma calls_list_comp_count {A B} fn (f : A -> M B) (xs : list A) (ys : list B) :
  outcome (list_comp f xs) = Ok ys ->
  (forall x y, outcome (f x) = Ok y -> length (calls_to fn (events (f x))) = 1) ->
  length (calls_to fn (events (list_comp f xs))) = length xs.
Proof.
  intros Hrun Hone. revert ys Hrun. induction xs as [|x xs IH]; intros ys Hrun; [done|].
  simpl in Hrun |- *.
  apply bind_ok_inv in Hrun as (y & Hy & Hrun & ->).
  apply bind_ok_inv in Hrun as (ys' & Hys' & _ & ->).
  rewrite events_ret, (right_id_L [] (++)), calls_to_app, length_app.
  by rewrite (Hone x y Hy), (IH ys' Hys').
Qed.

Lemma Forall_events_sample_reviews (P : event exn -> Prop)
    test_reviews test_sentiments predict :
  (forall o, P (Called ndarray_getitem_fn [] o)) ->
  (forall args, P (Printed args)) ->
  (forall review, Forall P (events (predict review))) ->
  Forall P (events (sample_reviews test_reviews test_sentiments predict)).
Proof.
  intros Hnd Hprint Hpredict. unfold sample_reviews, ndarray_getitem.
  apply Forall_events_bind; [by apply Forall_events_call|intros reviews _].
  apply Forall_events_bind; [by apply Forall_events_call|intros sentiments _].
  apply Forall_events_for_each. intros [review sentiment] _.
  repeat first
    [ apply Forall_events_print; apply Hprint
    | apply Hpredict
    | apply Forall_events_bind; [|intros ? ?] ].
Qed.

Lemma calls_bind_none {A B} fn (m : M A) (k : A -> M B) (n : nat) :
  calls_to fn (events m) = [] ->
  (forall a, length (calls_to fn (events (k a))) <= n) ->
  length (calls_to fn (events (bind m k))) <= n.
Proof.
  intros Hm Hk. rewrite events_bind, calls_to_app, Hm. simpl.
  destruct (outcome m) as [a|e]; [apply Hk|simpl; lia].
Qed.

Lemma not_call_to_report fn test_sentiments predicted_sentiments :
  fn <> display_model_performance_metrics_fn ->
  Forall (not_call_to fn) (events (report test_sentiments predicted_sentiments)).
Proof.
  intros Hfn. unfold report.
  apply Forall_events_bind; [by apply Forall_events_call|intros lines _].
  by apply Forall_events_print.
Qed.

Lemma not_call_to_analyze fn review threshold verbose :
  fn ∉ wrapper_calls -> fn ∉ frame_building ->
  Forall (not_call_to fn)
         (events (analyze_sentiment_vader_lexicon review threshold verbose)).
Proof.
  intros Hw Hf. apply Forall_events_analyze.
  - intros fn' args o Hin. simpl. by intros ->.
  - intros _. split; [|done]. intros fn' args o Hin. simpl. by intros ->.
Qed.

(** The run builds the AFINN object in one place only. *)
Lemma evaluate_builds_afinn_once test_reviews test_sentiments :
  length (calls_to Afinn_fn (events (evaluate test_reviews test_sentiments))) <= 1.
Proof.
  assert (Afinn_fn ∉ wrapper_calls) as Hw.
  { apply (bool_decide_eq_false_1 _). reflexivity. }
  assert (Afinn_fn ∉ frame_building) as Hf.
  { apply (bool_decide_eq_false_1 _). reflexivity. }
  unfold evaluate.
  apply calls_bind_none; [|intros _].
  { apply calls_to_none, Forall_events_sample_reviews; try done.
    intros review. unfold textblob_polarity.
    apply Forall_events_bind; [by apply Forall_events_call|intros polarity _].
    by apply Forall_events_print. }
  apply calls_bind_none; [|intros labels].
  { apply calls_to_none. unfold textblob_pipeline, textblob_sentiment_polarity,
      textblob_polarity.
    apply Forall_events_bind; [|intros; apply Forall_events_ret].
    apply Forall_events_list_comp. intros review _. by apply Forall_events_call. }
  apply calls_bind_none; [by apply calls_to_none, not_call_to_report|intros _].
  rewrite events_bind, calls_to_app, length_app.
  unfold afinn_new at 1. rewrite events_call, calls_to_cons. simpl.
  assert (forall afn,
            calls_to Afinn_fn
              (events
                 (do* afinn_samples afn test_reviews test_sentiments in
                  let* predicted_sentiments := afinn_pipeline afn test_reviews in
                  do* report test_sentiments predicted_sentiments in
                  do* vader_samples test_reviews test_sentiments in
                  let* predicted_sentiments := vader_predicted_sentiments test_reviews in
                  report test_sentiments predicted_sentiments)) = []) as Hrest.
  { intros afn. apply calls_to_none.
    apply Forall_events_bind; [|intros _ _].
    { apply Forall_events_sample_reviews; try done.
      intros review. unfold afinn_score.
      apply Forall_events_bind; [by apply Forall_events_call|intros polarity _].
      by apply Forall_events_print. }
    apply Forall_events_bind; [|intros labels' _].
    { unfold afinn_pipeline, afinn_sentiment_polarity, afinn_score.
      apply Forall_events_bind; [|intros; apply Forall_events_ret].
      apply Forall_events_list_comp. intros review _. by apply Forall_events_call. }
    apply Forall_events_bind; [by apply not_call_to_report|intros _ _].
    apply Forall_events_bind; [|intros _ _].
    { apply Forall_events_sample_reviews; try done. intros review.
      apply Forall_events_bind; [by apply not_call_to_analyze|].
      intros; apply Forall_events_ret. }
    apply Forall_events_bind; [|intros labels'' _; by apply not_call_to_report].
    unfold vader_predicted_sentiments. apply Forall_events_list_comp.
    intros review _. by apply not_call_to_analyze. }
  destruct (outcome afinn_new) as [afn|e]; [by rewrite Hrest|done].
Qed.

End ConstructionCounts.

(** X6. VADER's pipeline builds a new analyzer for every review: a run
    that returns has made as many [SentimentIntensityAnalyzer()] calls as
    there are reviews.  The AFINN object is built at most once in the
    whole evaluation and its one [score] method serves every review. *)
Theorem analyzer_built_per_review `{L : Library} :
  (forall test_reviews labels,
     outcome (vader_predicted_sentiments test_reviews) = Ok labels ->
     length (calls_to SentimentIntensityAnalyzer_fn
               (events (vader_predicted_sentiments test_reviews)))
     = length test_reviews) /\
  (forall test_reviews test_sentiments,
     length (calls_to Afinn_fn (events (evaluate test_reviews test_sentiments))) <= 1) /\
  (forall afn test_reviews labels,
     outcome (afinn_pipeline afn test_reviews) = Ok labels ->
     calls_to Afinn_fn (events (afinn_pipeline afn test_reviews)) = [] /\
     calls_to Afinn_score_fn (events (afinn_pipeline afn test_reviews))
     = (fun review => [review]) <$> test_reviews).
Proof.
  split; [|split].
  - intros test_reviews labels Hrun. unfold vader_predicted_sentiments in *.
    eapply calls_list_comp_count; [done|].
    intros review label Hlabel. by rewrite (analyze_builds_one _ _ _ _ Hlabel).
  - apply evaluate_builds_afinn_once.
  - intros afn test_reviews labels Hrun.
    unfold afinn_pipeline, afinn_sentiment_polarity, afinn_score in *.
    destruct (events_list_comp_call Afinn_score_fn (Afinn_score afn) test_reviews)
      as (n & Hev & Hn).
    apply bind_ok_inv in Hrun as (scores & Hscores & _ & ->).
    rewrite events_ret, (right_id_L [] (++)), Hev, (Hn _ Hscores).
    clear. split.
    + induction test_reviews as [|review rs IH]; [done|].
      rewrite fmap_cons, calls_to_cons. by rewrite bool_decide_eq_false_2.
    + induction test_reviews as [|review rs IH]; [done|].
      rewrite !fmap_cons, calls_to_cons, bool_decide_eq_true_2 by done. by rewrite IH.
Qed.

Lemma analyzer_built_per_review_witness :
  length (calls_to SentimentIntensityAnalyzer_fn
            (events (L := Toy.loaded_csv)
                    (vader_predicted_sentiments ["a good movie<br />"; "a bad movie"])))
    = length ["a good movie<br />"; "a bad movie"] /\
  calls_to Afinn_fn
    (events (afinn_pipeline (L := Toy.loaded_csv) tt ["a good movie"; "a bad movie"])) = [] /\
  calls_to Afinn_score_fn
    (events (afinn_pipeline (L := Toy.loaded_csv) tt ["a good movie"; "a bad movie"]))
    = [["a good movie"]; ["a bad movie"]].
Proof.
  destruct (analyzer_built_per_review (L := Toy.loaded_csv)) as (HV & _ & HA).
  split.
  - apply (HV _ ["negative"; "negative"]). reflexivity.
  - apply (HA tt ["a good movie"; "a bad movie"] ["positive"; "negative"]). reflexivity.
Defined.

(** ** The order of scores and cutoffs *)

Section FloatOrder.

Ltac fold_pos_compare :=
  repeat match goal with
  | H : context [PosDef.Pos.compare_cont Eq ?a ?b] |- _ =>
      change (PosDef.Pos.compare_cont Eq a b) with (Pos.compare a b) in H
  | |- context [PosDef.Pos.compare_cont Eq ?a ?b] =>
      change (PosDef.Pos.compare_cont Eq a b) with (Pos.compare a b)
  end.

Ltac compare_cases :=
  repeat match goal with
  | H : context [Z.compare ?a ?b] |- _ => destruct (Z.compare_spec a b); simpl in H
  | |- context [Z.compare ?a ?b] => destruct (Z.compare_spec a b); simpl
  | H : context [Pos.compare ?a ?b] |- _ => destruct (Pos.compare_spec a b); simpl in H
  | |- context [Pos.compare ?a ?b] => destruct (Pos.compare_spec a b); simpl
  end.

Lemma SFleb_trans (x y z : float) :
  SFleb x y = true -> SFleb y z = true -> SFleb x z = true.
Proof.
  unfold SFleb, SFcompare.
  destruct x as [sx|sx| |sx mx ex], y as [sy|sy| |sy my ey], z as [sz|sz| |sz mz ez];
    try destruct sx; try destruct sy; try destruct sz;
    try discriminate; try reflexivity;
    intros Hxy Hyz; fold_pos_compare;
    compare_cases; subst; try discriminate; try reflexivity; try lia.
Qed.

Lemma SFleb_refl (x : float) : x <> S754_nan -> SFleb x x = true.
Proof.
  unfold SFleb, SFcompare. destruct x as [s|s| |s m e]; try destruct s;
    intros Hx; try congruence; try reflexivity; fold_pos_compare;
    rewrite ?Z.compare_refl, ?Pos.compare_refl; reflexivity.
Qed.

Lemma geb_trans (x y z : float) : geb x y = true -> geb y z = true -> geb x z = true.
Proof. unfold geb. intros Hxy Hyz. by eapply SFleb_trans. Qed.

Lemma threshold_label_positive cutoff score :
  threshold_label cutoff score = "positive" <-> geb score cutoff = true.
Proof. unfold threshold_label. by destruct (geb score cutoff). Qed.

(** A higher score keeps a positive label; a lower cutoff too. *)
Lemma threshold_label_mono_score cutoff s1 s2 :
  geb s2 s1 = true ->
  threshold_label cutoff s1 = "positive" -> threshold_label cutoff s2 = "positive".
Proof. rewrite !threshold_label_positive. apply geb_trans. Qed.

Lemma threshold_label_mono_cutoff c1 c2 score :
  geb c2 c1 = true ->
  threshold_label c2 score = "positive" -> threshold_label c1 score = "positive".
Proof. rewrite !threshold_label_positive. intros Hc Hs. by eapply geb_trans. Qed.

End FloatOrder.

(** X7. The label is monotone in the score and in the cutoff.  In the
    TextBlob and AFINN cells a score at least as high as a score labelled
    ['positive'] is labelled ['positive'] too, and lowering the cutoff
    keeps every ['positive'].  A score equal to the cutoff is ['positive'],
    a NaN score or cutoff gives ['negative'], and the two zeros get the
    same label. *)
Theorem threshold_label_monotone :
  (forall (scores : list float) i j si sj,
     scores !! i = Some si -> scores !! j = Some sj -> geb sj si = true ->
     (textblob_predicted_sentiments scores !! i = Some "positive" ->
      textblob_predicted_sentiments scores !! j = Some "positive") /\
     (afinn_predicted_sentiments scores !! i = Some "positive" ->
      afinn_predicted_sentiments scores !! j = Some "positive")) /\
  (forall c1 c2 score,
     geb c2 c1 = true ->
     threshold_label c2 score = "positive" -> threshold_label c1 score = "positive") /\
  (forall cutoff, cutoff <> S754_nan -> threshold_label cutoff cutoff = "positive") /\
  (forall x,
     threshold_label x S754_nan = "negative" /\ threshold_label S754_nan x = "negative") /\
  (forall cutoff,
     threshold_label cutoff (S754_zero true) = threshold_label cutoff (S754_zero false)).
Proof.
  split; [|split; [|split; [|split]]].
  - intros scores i j si sj Hi Hj Hge.
    unfold textblob_predicted_sentiments, afinn_predicted_sentiments.
    rewrite !list_lookup_fmap, Hi, Hj. simpl.
    split; intros [= Hpos]; f_equal;
      by apply (threshold_label_mono_score _ si sj Hge).
  - apply threshold_label_mono_cutoff.
  - intros cutoff Hc. apply threshold_label_positive. by apply SFleb_refl.
  - intros x. split; [by destruct x|done].
  - intros cutoff. unfold threshold_label, geb, SFleb, SFcompare.
    by destruct cutoff as [s|s| |s m e].
Qed.

Lemma threshold_label_monotone_witness :
  (textblob_predicted_sentiments [Toy.f_0_25; Toy.f_neg_0_25; Toy.f_2_0] !! 0
     = Some "positive" ->
   textblob_predicted_sentiments [Toy.f_0_25; Toy.f_neg_0_25; Toy.f_2_0] !! 2
     = Some "positive") /\
  threshold_label f_0_1 Toy.f_2_0 = "positive" /\
  threshold_label f_0_4 f_0_4 = "positive".
Proof.
  destruct threshold_label_monotone as (Hscore & Hcutoff & Hrefl & _).
  split; [|split].
  - apply (Hscore [Toy.f_0_25; Toy.f_neg_0_25; Toy.f_2_0] 0 2 Toy.f_0_25 Toy.f_2_0);
      reflexivity.
  - apply (Hcutoff f_0_1 f_1_0 Toy.f_2_0); reflexivity.
  - apply Hrefl. discriminate.
Defined.

(** X8. Raising the threshold of the wrapper never turns a negative
    review positive: a review the wrapper calls ['positive'] at one
    threshold is ['positive'] at every threshold that is not higher.  So
    every review the notebook's evaluation labels ['positive'] with 0.4
    is ['positive'] for a call with the default arguments. *)
Theorem positive_survives_lower_threshold `{L : Library} (review : string) :
  (forall t1 t2 verbose,
     geb t2 t1 = true ->
     outcome (analyze_sentiment_vader_lexicon review (Some t2) verbose) = Ok "positive" ->
     outcome (analyze_sentiment_vader_lexicon review (Some t1) (Some false))
       = Ok "positive") /\
  (forall test_reviews labels i,
     test_reviews !! i = Some review ->
     outcome (vader_predicted_sentiments test_reviews) = Ok labels ->
     labels !! i = Some "positive" ->
     outcome (analyze_sentiment_vader_lexicon review None None) = Ok "positive").
Proof.
  split.
  - intros t1 t2 verbose Hge (score & Hscore & Hlabel)%analyze_ok.
    rewrite (analyze_quiet review (Some t1) (Some false) score); [|done..].
    f_equal. simpl in *. symmetry in Hlabel.
    by apply (threshold_label_mono_cutoff t1 t2).
  - intros test_reviews labels i Hi (scores & Hs & ->)%vader_pipeline_ok Hpos.
    destruct (Forall2_lookup_l _ _ _ _ _ Hs Hi) as (score & Hi' & Hscore).
    rewrite list_lookup_fmap, Hi' in Hpos. simpl in Hpos. injection Hpos as Hpos.
    rewrite (analyze_quiet review None None score); [|done..].
    f_equal. simpl. unfold threshold_default.
    by apply (threshold_label_mono_cutoff f_0_1 f_0_4).
Qed.

Lemma positive_survives_lower_threshold_witness :
  outcome (L := Toy.loaded_csv)
          (analyze_sentiment_vader_lexicon "a good movie" (Some Toy.f_neg_0_25) (Some false))
    = Ok "positive".
Proof.
  destruct (positive_survives_lower_threshold (L := Toy.loaded_csv) "a good movie")
    as [Hlower _].
  apply (Hlower Toy.f_neg_0_25 f_0_1 (Some true)); reflexivity.
Defined.

(** ** Line breaks after [strip_html_tags] *)

Section LineBreakFacts.
Import LineBreaks.

Lemma in_class_spec (c : ascii) :
  in_class c = true <-> c = CR \/ c = pipe \/ c = LF.
Proof.
  unfold in_class. rewrite !orb_true_iff, !Ascii.eqb_eq. tauto.
Qed.

(** What is left after the substitution: line feeds, and the characters
    of the text that are outside the class. *)
Lemma chars_collapse_runs (in_run : bool) (text : string) (c : ascii) :
  c ∈ chars (collapse_runs in_run text) ->
  c = LF \/ (in_class c = false /\ c ∈ chars text).
Proof.
  revert in_run. induction text as [|a text IH]; intros in_run; simpl.
  - by intros ?%elem_of_nil.
  - unfold chars in *. simpl. destruct (in_class a) eqn:Ha.
    + destruct in_run; simpl.
      * intros [?|[? ?]]%IH; [by left|right]. split; [done|by right].
      * intros [->|[?|[? ?]]%IH]%elem_of_cons; [by left|by left|right].
        split; [done|by right].
    + simpl. intros [->|[?|[? ?]]%IH]%elem_of_cons.
      * right. split; [done|left].
      * by left.
      * right. split; [done|by right].
Qed.

Lemma collapse_runs_no_adjacent (in_run : bool) (text : string) :
  adjacent_line_feeds (collapse_runs in_run text) = false /\
  (in_run = true ->
   forall rest, collapse_runs in_run text <> String LF rest).
Proof.
  revert in_run. induction text as [|a text IH]; intros in_run; simpl.
  - split; [done|]. intros _ rest. discriminate.
  - destruct (in_class a) eqn:Ha.
    + destruct in_run.
      * apply IH.
      * split; [|done]. destruct (IH true) as [Hadj Hhead].
        simpl. destruct (collapse_runs true text) as [|b rest] eqn:Hc; [done|].
        rewrite Hadj, orb_false_r.
        apply Ascii.eqb_neq. intros ->. by apply (Hhead eq_refl rest).
    + destruct (IH false) as [Hadj _]. split.
      * simpl. destruct (collapse_runs false text) as [|b rest] eqn:Hc; [done|].
        rewrite Hadj, orb_false_r. apply andb_false_iff. left.
        apply Ascii.eqb_neq. intros ->.
        assert (in_class LF = true) as HLF by reflexivity. congruence.
      * intros _ rest [= -> _].
        assert (in_class LF = true) as HLF by reflexivity. congruence.
Qed.

(** A text whose only class characters are single line feeds is left as
    it is. *)
Lemma collapse_runs_fixed (text : string) :
  (forall c, c ∈ chars text -> in_class c = true -> c = LF) ->
  adjacent_line_feeds text = false ->
  collapse_runs false text = text /\
  ((forall rest, text <> String LF rest) -> collapse_runs true text = text).
Proof.
  induction text as [|a text IH]; intros Hclass Hadj; [done|].
  assert (forall c, c ∈ chars text -> in_class c = true -> c = LF) as Hclass'.
  { intros c Hc. apply Hclass. unfold chars in *. simpl. by right. }
  assert (adjacent_line_feeds text = false) as Hadj'.
  { simpl in Hadj. destruct text; [done|]. by apply orb_false_iff in Hadj as [_ ?]. }
  destruct (IH Hclass' Hadj') as [IHf IHt]. simpl.
  destruct (in_class a) eqn:Ha.
  - assert (a = LF) as ->. { apply Hclass; [|done]. unfold chars. simpl. left. }
    split.
    + f_equal. apply IHt. intros rest ->. by simpl in Hadj.
    + intros Hhead. by destruct (Hhead text).
  - split; intros; by rewrite IHf.
Qed.

Lemma re_sub_line_breaks_spec (raw : string) :
  (CR ∉ chars (re_sub_line_breaks raw)) /\
  (pipe ∉ chars (re_sub_line_breaks raw)) /\
  adjacent_line_feeds (re_sub_line_breaks raw) = false /\
  re_sub_line_breaks (re_sub_line_breaks raw) = re_sub_line_breaks raw /\
  ((forall c, c ∈ chars raw -> in_class c = false) -> re_sub_line_breaks raw = raw).
Proof.
  unfold re_sub_line_breaks.
  assert (forall c, c ∈ chars (collapse_runs false raw) -> in_class c = true -> c = LF)
    as Hclass.
  { intros c [->|[Hc _]]%chars_collapse_runs; [done|congruence]. }
  split; [|split; [|split; [|split]]].
  - intros Hin. by specialize (Hclass _ Hin eq_refl).
  - intros Hin. by specialize (Hclass _ Hin eq_refl).
  - apply collapse_runs_no_adjacent.
  - apply collapse_runs_fixed; [done|apply collapse_runs_no_adjacent].
  - clear Hclass. intros Hnone. induction raw as [|a raw IH]; [done|]. simpl.
    rewrite (Hnone a) by (unfold chars; simpl; left). f_equal. apply IH.
    intros c Hc. apply Hnone. unfold chars in *. simpl. by right.
Qed.

End LineBreakFacts.

(** X9. With [re.sub] reading the pattern [[\r|\n|\r\n]+] as Python
    does, the text [strip_html_tags] returns is the parser's text in
    which every run of carriage returns, line feeds and vertical bars has
    become one line feed: it holds no carriage return and no vertical
    bar, no two line feeds in a row, a second substitution would change
    nothing, and a text without these three characters comes back as the
    parser gave it. *)
Theorem strip_html_tags_line_breaks `{L : Library}
    (Hre : forall raw,
       re_sub "[\r|\n|\r\n]+" newline raw = Ok (LineBreaks.re_sub_line_breaks raw))
    (text stripped_text : string)
    (Hrun : outcome (strip_html_tags text) = Ok stripped_text) :
  exists soup1 raw,
    soup_get_text soup1 = Ok raw /\
    stripped_text = LineBreaks.re_sub_line_breaks raw /\
    (LineBreaks.CR ∉ LineBreaks.chars stripped_text) /\
    (LineBreaks.pipe ∉ LineBreaks.chars stripped_text) /\
    LineBreaks.adjacent_line_feeds stripped_text = false /\
    LineBreaks.re_sub_line_breaks stripped_text = stripped_text /\
    ((forall c, c ∈ LineBreaks.chars raw -> LineBreaks.in_class c = false) ->
     stripped_text = raw).
Proof.
  revert Hrun. unfold strip_html_tags. intros Hrun.
  apply bind_ok_inv in Hrun as (soup0 & _ & Hrun & _).
  apply bind_ok_inv in Hrun as (tags & _ & Hrun & _).
  apply bind_ok_inv in Hrun as (soup1 & _ & Hrun & _).
  apply bind_ok_inv in Hrun as (raw & Hraw & Hrun & _).
  apply bind_ok_inv in Hrun as (out & Hout & Hrun & _).
  rewrite outcome_call in Hraw, Hout. rewrite Hre in Hout.
  rewrite outcome_ret in Hrun. injection Hout as <-. injection Hrun as <-.
  exists soup1, raw. split; [done|]. split; [done|].
  apply re_sub_line_breaks_spec.
Qed.

Lemma strip_html_tags_line_breaks_witness :
  exists (soup1 : @soup LineBreaks.regex_library) raw,
    @soup_get_text LineBreaks.regex_library soup1 = Ok raw /\
    String.append "good" (String.append newline "movie")
      = LineBreaks.re_sub_line_breaks raw /\
    (LineBreaks.CR
       ∉ LineBreaks.chars (String.append "good" (String.append newline "movie"))) /\
    (LineBreaks.pipe
       ∉ LineBreaks.chars (String.append "good" (String.append newline "movie"))) /\
    LineBreaks.adjacent_line_feeds (String.append "good" (String.append newline "movie"))
      = false /\
    LineBreaks.re_sub_line_breaks (String.append "good" (String.append newline "movie"))
      = String.append "good" (String.append newline "movie") /\
    ((forall c, c ∈ LineBreaks.chars raw -> LineBreaks.in_class c = false) ->
     String.append "good" (String.append newline "movie") = raw).
Proof.
  apply (strip_html_tags_line_breaks (L := LineBreaks.regex_library)
           (fun raw => eq_refl) "good||movie").
  reflexivity.
Defined.

(** ** Batches and rows *)

Section Batches.
Context `{L : Library}.

Lemma list_comp_app {A B} (f : A -> M B) (xs ys : list A) :
  outcome (list_comp f (xs ++ ys)) =
  match outcome (list_comp f xs) with
  | Ok l1 =>
      match outcome (list_comp f ys) with
      | Ok l2 => Ok (l1 ++ l2)
      | Raise e => Raise e
      end
  | Raise e => Raise e
  end.
Proof.
  induction xs as [|x xs IH].
  - change (outcome (list_comp f [])) with (Ok (@nil B) : result exn (list B)).
    simpl. by destruct (outcome (list_comp f ys)).
  - simpl. rewrite !outcome_bind. destruct (outcome (f x)) as [y|e]; [|done].
    rewrite !outcome_bind, IH.
    destruct (outcome (list_comp f xs)) as [l1|e]; [|done].
    rewrite outcome_ret. destruct (outcome (list_comp f ys)) as [l2|e]; [|done].
    by rewrite outcome_ret.
Qed.

Lemma outcome_then_ret {A B} (m : M A) (g : A -> B) :
  outcome (let* a := m in ret (g a)) =
  match outcome m with Ok a => Ok (g a) | Raise e => Raise e end.
Proof. rewrite outcome_bind. by destruct (outcome m). Qed.

(** Row by row: labels against the rows they come from. *)
Lemma aligned_rows (R : string -> float -> Prop) (cutoff : float)
    (reviews sentiments : list string) (scores : list float) (n : nat) :
  length reviews = length sentiments ->
  Forall2 R (drop n reviews) scores ->
  length (threshold_label cutoff <$> scores) = length (drop n sentiments) /\
  forall i label,
    (threshold_label cutoff <$> scores) !! i = Some label ->
    exists review truth score,
      reviews !! (n + i) = Some review /\
      sentiments !! (n + i) = Some truth /\
      drop n sentiments !! i = Some truth /\
      R review score /\
      label = threshold_label cutoff score.
Proof.
  intros Hlen Hs. pose proof (Forall2_length _ _ _ Hs) as Hl.
  rewrite length_fmap. rewrite length_drop in Hl |- *. split; [lia|].
  intros i label Hi. rewrite list_lookup_fmap in Hi.
  destruct (scores !! i) as [score|] eqn:Hscore; [|done]. injection Hi as <-.
  destruct (Forall2_lookup_r _ _ _ _ _ Hs Hscore) as (review & Hreview & HR).
  rewrite lookup_drop in Hreview.
  assert (is_Some (sentiments !! (n + i))) as [truth Htruth].
  { apply lookup_lt_is_Some. apply lookup_lt_Some in Hreview. lia. }
  exists review, truth, score. by rewrite lookup_drop.
Qed.

End Batches.

(** X11. A pipeline run over two batches one after the other gives what
    it gives over the two batches apart: the labels of the first batch
    followed by those of the second when both return, and otherwise the
    exception of the first batch that raises. *)
Theorem pipelines_split_over_batches `{L : Library} (batch1 batch2 : list string) :
  outcome (textblob_pipeline (batch1 ++ batch2)) =
    match outcome (textblob_pipeline batch1) with
    | Ok labels1 =>
        match outcome (textblob_pipeline batch2) with
        | Ok labels2 => Ok (labels1 ++ labels2)
        | Raise e => Raise e
        end
    | Raise e => Raise e
    end /\
  (forall afn,
     outcome (afinn_pipeline afn (batch1 ++ batch2)) =
       match outcome (afinn_pipeline afn batch1) with
       | Ok labels1 =>
           match outcome (afinn_pipeline afn batch2) with
           | Ok labels2 => Ok (labels1 ++ labels2)
           | Raise e => Raise e
           end
       | Raise e => Raise e
       end) /\
  outcome (vader_predicted_sentiments (batch1 ++ batch2)) =
    match outcome (vader_predicted_sentiments batch1) with
    | Ok labels1 =>
        match outcome (vader_predicted_sentiments batch2) with
        | Ok labels2 => Ok (labels1 ++ labels2)
        | Raise e => Raise e
        end
    | Raise e => Raise e
    end.
Proof.
  split; [|split].
  - unfold textblob_pipeline, textblob_sentiment_polarity.
    rewrite !outcome_then_ret, list_comp_app.
    destruct (outcome (list_comp _ batch1)) as [s1|e]; [|done].
    destruct (outcome (list_comp _ batch2)) as [s2|e]; [|done].
    unfold textblob_predicted_sentiments. by rewrite fmap_app.
  - intros afn. unfold afinn_pipeline, afinn_sentiment_polarity.
    rewrite !outcome_then_ret, list_comp_app.
    destruct (outcome (list_comp _ batch1)) as [s1|e]; [|done].
    destruct (outcome (list_comp _ batch2)) as [s2|e]; [|done].
    unfold afinn_predicted_sentiments. by rewrite fmap_app.
  - unfold vader_predicted_sentiments. apply list_comp_app.
Qed.

(** * The helpers of the wrapper, call by call *)

Section Helpers.
Context `{L : Library}.










End Helpers.



(** * What the sample loop of VADER prints *)

Section SamplePrints.
Context `{L : Library}.









End SamplePrints.



(** * What the reports are given *)

Section Reports.
Context `{L : Library}.

Lemma report_ok test_sentiments predicted_sentiments :
  outcome (report test_sentiments predicted_sentiments) = Ok tt ->
  exists lines,
    display_model_performance_metrics
      test_sentiments predicted_sentiments ["positive"; "negative"] = Ok lines /\
    events (report test_sentiments predicted_sentiments) =
      [Called display_model_performance_metrics_fn [] None; Printed lines].
Proof.
  unfold report. intros Hrun.
  apply bind_ok_inv in Hrun as (lines & Hlines & _ & ->).
  rewrite outcome_call in Hlines. exists lines. split; [done|].
  by rewrite events_call, events_print, Hlines.
Qed.

(** An evaluation that returns: the three pipelines returned, and each
    report was computed from the test sentiments and the labels of its
    own pipeline, in this order of arguments, right after that pipeline. *)
Lemma evaluate_reports test_reviews test_sentiments :
  outcome (evaluate test_reviews test_sentiments) = Ok tt ->
  exists labels1 afn labels2 labels3 lines1 lines2 lines3,
    outcome (textblob_pipeline test_reviews) = Ok labels1 /\
    Afinn true = Ok afn /\
    outcome (afinn_pipeline afn test_reviews) = Ok labels2 /\
    outcome (vader_predicted_sentiments test_reviews) = Ok labels3 /\
    display_model_performance_metrics
      test_sentiments labels1 ["positive"; "negative"] = Ok lines1 /\
    display_model_performance_metrics
      test_sentiments labels2 ["positive"; "negative"] = Ok lines2 /\
    display_model_performance_metrics
      test_sentiments labels3 ["positive"; "negative"] = Ok lines3 /\
    events (evaluate test_reviews test_sentiments) =
      events (textblob_samples test_reviews test_sentiments) ++
      events (textblob_pipeline test_reviews) ++
      [Called display_model_performance_metrics_fn [] None; Printed lines1] ++
      [Called Afinn_fn [] None] ++
      events (afinn_samples afn test_reviews test_sentiments) ++
      events (afinn_pipeline afn test_reviews) ++
      [Called display_model_performance_metrics_fn [] None; Printed lines2] ++
      events (vader_samples test_reviews test_sentiments) ++
      events (vader_predicted_sentiments test_reviews) ++
      [Called display_model_performance_metrics_fn [] None; Printed lines3].
Proof.
  unfold evaluate. intros Hrun.
  apply bind_ok_inv in Hrun as ([] & _ & Hrun & ->).
  apply bind_ok_inv in Hrun as (labels1 & Hlabels1 & Hrun & ->).
  apply bind_ok_inv in Hrun as ([] & Hreport1 & Hrun & ->).
  apply bind_ok_inv in Hrun as (afn & Hafn & Hrun & ->).
  apply bind_ok_inv in Hrun as ([] & _ & Hrun & ->).
  apply bind_ok_inv in Hrun as (labels2 & Hlabels2 & Hrun & ->).
  apply bind_ok_inv in Hrun as ([] & Hreport2 & Hrun & ->).
  apply bind_ok_inv in Hrun as ([] & _ & Hrun & ->).
  apply bind_ok_inv in Hrun as (labels3 & Hlabels3 & Hreport3 & ->).
  apply report_ok in Hreport1 as (lines1 & Hlines1 & ->).
  apply report_ok in Hreport2 as (lines2 & Hlines2 & ->).
  apply report_ok in Hreport3 as (lines3 & Hlines3 & ->).
  unfold afinn_new in *. rewrite outcome_call in Hafn. rewrite events_call, Hafn.
  by exists labels1, afn, labels2, labels3, lines1, lines2, lines3.
Qed.

End Reports.

Section WholeRun.
Context `{L : Library}.

(** A run of the notebook that returns is the loading cells, the split
    and the evaluation of that split, reviews first. *)
Lemma notebook_evaluates_split dataset reviews sentiments :
  pd_read_csv "movie_reviews.csv.bz2" "bz2" = Ok dataset ->
  DataFrame_getitem_values dataset "review" = Ok reviews ->
  DataFrame_getitem_values dataset "sentiment" = Ok sentiments ->
  outcome notebook = Ok tt ->
  outcome (evaluate (drop (Z.to_nat 35000) reviews) (drop (Z.to_nat 35000) sentiments))
    = Ok tt /\
  events notebook =
    events load_dataset ++ events (extract_test_data dataset) ++
    events (evaluate (drop (Z.to_nat 35000) reviews) (drop (Z.to_nat 35000) sentiments)).
Proof.
  intros Hread Hreviews Hsentiments. unfold notebook. intros Hrun.
  apply bind_ok_inv in Hrun as (dataset' & Hload & Hrun & ->).
  apply load_dataset_ok in Hload as [Hload _].
  assert (dataset' = dataset) as -> by congruence.
  apply bind_ok_inv in Hrun as (split & Hsplit & Hrun & ->).
  rewrite (outcome_extract_test_data _ _ _ Hreviews Hsentiments) in Hsplit.
  injection Hsplit as <-. by split.
Qed.

Lemma list_comp_replicate {A B} (f : A -> M B) (x : A) (y : B) (n : nat) :
  outcome (f x) = Ok y ->
  outcome (list_comp f (replicate n x)) = Ok (replicate n y).
Proof.
  intros Hx. apply list_comp_ok. induction n as [|n IH]; simpl; by constructor.
Qed.

End WholeRun.

Lemma Ok_pair_inv {E A B} (a a' : A) (b b' : B) :
  (Ok (a, b) : result E (A * B)) = Ok (a', b') -> a = a' /\ b = b'.
Proof. by intros [= -> ->]. Qed.

(** The evaluation cells return on 13011 copies of a toy review. *)
Lemma evaluate_returns_on_toy_rows :
  outcome (L := ToyData.long_csv) (evaluate ToyData.many_reviews ToyData.many_sentiments)
    = Ok tt.
Proof.
  assert (outcome (L := ToyData.long_csv)
            (textblob_samples ToyData.many_reviews ToyData.many_sentiments) = Ok tt)
    as Hsamples1 by (by vm_compute).
  assert (outcome (L := ToyData.long_csv) (afinn_new (L := ToyData.long_csv)) = Ok tt)
    as Hafn by (by vm_compute).
  assert (outcome (L := ToyData.long_csv)
            (afinn_samples (L := ToyData.long_csv) tt
               ToyData.many_reviews ToyData.many_sentiments) = Ok tt)
    as Hsamples2 by (by vm_compute).
  assert (outcome (L := ToyData.long_csv)
            (vader_samples ToyData.many_reviews ToyData.many_sentiments) = Ok tt)
    as Hsamples3 by (by vm_compute).
  assert (forall labels,
            outcome (L := ToyData.long_csv) (report ToyData.many_sentiments labels) = Ok tt)
    as Hreport by (by intros labels; vm_compute).
  assert (outcome (L := ToyData.long_csv) (textblob_pipeline ToyData.many_reviews)
            = Ok (replicate (Z.to_nat 13011) "positive")) as Hlabels1.
  { unfold textblob_pipeline, textblob_sentiment_polarity, ToyData.many_reviews.
    rewrite outcome_bind.
    rewrite (list_comp_replicate (L := ToyData.long_csv) _ _ Toy.f_0_25) by (by vm_compute).
    rewrite outcome_ret. by vm_compute. }
  assert (outcome (L := ToyData.long_csv)
            (afinn_pipeline (L := ToyData.long_csv) tt ToyData.many_reviews)
            = Ok (replicate (Z.to_nat 13011) "positive")) as Hlabels2.
  { unfold afinn_pipeline, afinn_sentiment_polarity, ToyData.many_reviews.
    rewrite outcome_bind.
    rewrite (list_comp_replicate (L := ToyData.long_csv) _ _ Toy.f_2_0) by (by vm_compute).
    rewrite outcome_ret. by vm_compute. }
  assert (outcome (L := ToyData.long_csv) (vader_predicted_sentiments ToyData.many_reviews)
            = Ok (replicate (Z.to_nat 13011) "negative")) as Hlabels3.
  { unfold vader_predicted_sentiments, ToyData.many_reviews.
    by apply (list_comp_replicate (L := ToyData.long_csv)); vm_compute. }
  unfold evaluate.
  rewrite outcome_bind, Hsamples1, outcome_bind, Hlabels1, outcome_bind, Hreport.
  rewrite outcome_bind, Hafn, outcome_bind, Hsamples2, outcome_bind, Hlabels2.
  rewrite outcome_bind, Hreport, outcome_bind, Hsamples3, outcome_bind, Hlabels3.
  apply Hreport.
Qed.

(** X10. The labels handed to the report line up with the true
    sentiments.  When the two columns are equally long, each pipeline
    that returns gives as many labels as there are test sentiments, and
    its i-th label is the threshold label of the score of the review in
    row 35000+i, the row whose ['sentiment'] cell is the i-th test
    sentiment.  An evaluation of the split that returns computed each of
    its three reports by [display_model_performance_metrics] from the
    test sentiments as true labels, the labels of that pipeline as
    predicted labels and the classes ['positive', 'negative'], right
    after the pipeline; and a run of the notebook that returns is the
    loading cells, the split and this evaluation. *)
Theorem predictions_aligned_with_truth `{L : Library}
    (dataset : frame) (reviews sentiments : list string)
    (Hreviews : DataFrame_getitem_values dataset "review" = Ok reviews)
    (Hsentiments : DataFrame_getitem_values dataset "sentiment" = Ok sentiments)
    (Hlength : length reviews = length sentiments) :
  exists test_reviews test_sentiments,
    outcome (extract_test_data dataset) = Ok (test_reviews, test_sentiments) /\
    (forall labels,
       outcome (textblob_pipeline test_reviews) = Ok labels ->
       length labels = length test_sentiments /\
       forall i label,
         labels !! i = Some label ->
         exists review truth score,
           reviews !! (Z.to_nat 35000 + i) = Some review /\
           sentiments !! (Z.to_nat 35000 + i) = Some truth /\
           test_sentiments !! i = Some truth /\
           TextBlob_polarity review = Ok score /\
           label = threshold_label f_0_1 score) /\
    (forall afn labels,
       outcome (afinn_pipeline afn test_reviews) = Ok labels ->
       length labels = length test_sentiments /\
       forall i label,
         labels !! i = Some label ->
         exists review truth score,
           reviews !! (Z.to_nat 35000 + i) = Some review /\
           sentiments !! (Z.to_nat 35000 + i) = Some truth /\
           test_sentiments !! i = Some truth /\
           Afinn_score afn review = Ok score /\
           label = threshold_label f_1_0 score) /\
    (forall labels,
       outcome (vader_predicted_sentiments test_reviews) = Ok labels ->
       length labels = length test_sentiments /\
       forall i label,
         labels !! i = Some label ->
         exists review truth score,
           reviews !! (Z.to_nat 35000 + i) = Some review /\
           sentiments !! (Z.to_nat 35000 + i) = Some truth /\
           test_sentiments !! i = Some truth /\
           compound_score review score /\
           label = threshold_label f_0_4 score) /\
    (outcome (evaluate test_reviews test_sentiments) = Ok tt ->
     exists labels1 afn labels2 labels3 lines1 lines2 lines3,
       outcome (textblob_pipeline test_reviews) = Ok labels1 /\
       Afinn true = Ok afn /\
       outcome (afinn_pipeline afn test_reviews) = Ok labels2 /\
       outcome (vader_predicted_sentiments test_reviews) = Ok labels3 /\
       display_model_performance_metrics
         test_sentiments labels1 ["positive"; "negative"] = Ok lines1 /\
       display_model_performance_metrics
         test_sentiments labels2 ["positive"; "negative"] = Ok lines2 /\
       display_model_performance_metrics
         test_sentiments labels3 ["positive"; "negative"] = Ok lines3 /\
       events (evaluate test_reviews test_sentiments) =
         events (textblob_samples test_reviews test_sentiments) ++
         events (textblob_pipeline test_reviews) ++
         [Called display_model_performance_metrics_fn [] None; Printed lines1] ++
         [Called Afinn_fn [] None] ++
         events (afinn_samples afn test_reviews test_sentiments) ++
         events (afinn_pipeline afn test_reviews) ++
         [Called display_model_performance_metrics_fn [] None; Printed lines2] ++
         events (vader_samples test_reviews test_sentiments) ++
         events (vader_predicted_sentiments test_reviews) ++
         [Called display_model_performance_metrics_fn [] None; Printed lines3]) /\
    (pd_read_csv "movie_reviews.csv.bz2" "bz2" = Ok dataset ->
     outcome notebook = Ok tt ->
     outcome (evaluate test_reviews test_sentiments) = Ok tt /\
     events notebook =
       events load_dataset ++ events (extract_test_data dataset) ++
       events (evaluate test_reviews test_sentiments)).
Proof.
  exists (drop (Z.to_nat 35000) reviews), (drop (Z.to_nat 35000) sentiments).
  split; [by apply outcome_extract_test_data|]. split; [|split; [|split; [|split]]].
  - intros labels (scores & Hs & ->)%textblob_pipeline_ok.
    by apply (aligned_rows (fun review score => TextBlob_polarity review = Ok score)).
  - intros afn labels (scores & Hs & ->)%afinn_pipeline_ok.
    by apply (aligned_rows (fun review score => Afinn_score afn review = Ok score)).
  - intros labels (scores & Hs & ->)%vader_pipeline_ok.
    by apply (aligned_rows compound_score).
  - apply evaluate_reports.
  - intros Hread Hrun. by apply notebook_evaluates_split.
Qed.

Lemma predictions_aligned_with_truth_witness :
  exists test_reviews test_sentiments,
    outcome (extract_test_data (L := ToyData.long_csv) ToyData.long_reviews)
      = Ok (test_reviews, test_sentiments) /\
    (forall labels,
       outcome (L := ToyData.long_csv) (textblob_pipeline test_reviews) = Ok labels ->
       length labels = length test_sentiments /\
       forall i label,
         labels !! i = Some label ->
         exists review truth score,
           replicate (Z.to_nat 48011) "a good movie" !! (Z.to_nat 35000 + i)
             = Some review /\
           replicate (Z.to_nat 48011) "positive" !! (Z.to_nat 35000 + i) = Some truth /\
           test_sentiments !! i = Some truth /\
           Toy.lexicon Toy.f_0_25 Toy.f_neg_0_25 review = Ok score /\
           label = threshold_label f_0_1 score) /\
    (exists labels1 afn labels2 labels3 lines1 lines2 lines3,
       outcome (L := ToyData.long_csv) (textblob_pipeline test_reviews) = Ok labels1 /\
       Afinn (Library := ToyData.long_csv) true = Ok afn /\
       outcome (L := ToyData.long_csv) (afinn_pipeline afn test_reviews) = Ok labels2 /\
       outcome (L := ToyData.long_csv) (vader_predicted_sentiments test_reviews)
         = Ok labels3 /\
       display_model_performance_metrics (Library := ToyData.long_csv)
         test_sentiments labels1 ["positive"; "negative"] = Ok lines1 /\
       display_model_performance_metrics (Library := ToyData.long_csv)
         test_sentiments labels2 ["positive"; "negative"] = Ok lines2 /\
       display_model_performance_metrics (Library := ToyData.long_csv)
         test_sentiments labels3 ["positive"; "negative"] = Ok lines3 /\
       events (L := ToyData.long_csv) (evaluate test_reviews test_sentiments) =
         events (textblob_samples test_reviews test_sentiments) ++
         events (textblob_pipeline test_reviews) ++
         [Called display_model_performance_metrics_fn [] None; Printed lines1] ++
         [Called Afinn_fn [] None] ++
         events (afinn_samples afn test_reviews test_sentiments) ++
         events (afinn_pipeline afn test_reviews) ++
         [Called display_model_performance_metrics_fn [] None; Printed lines2] ++
         events (vader_samples test_reviews test_sentiments) ++
         events (vader_predicted_sentiments test_reviews) ++
         [Called display_model_performance_metrics_fn [] None; Printed lines3]).
Proof.
  destruct (predictions_aligned_with_truth (L := ToyData.long_csv) ToyData.long_reviews
              (replicate (Z.to_nat 48011) "a good movie")
              (replicate (Z.to_nat 48011) "positive")
              eq_refl eq_refl)
    as (test_reviews & test_sentiments & Hsplit & HT & _ & _ & Hreports & _).
  - by rewrite !length_replicate.
  - exists test_reviews, test_sentiments. split; [done|]. split; [done|].
    apply Hreports.
    rewrite (outcome_extract_test_data (L := ToyData.long_csv) ToyData.long_reviews
               (replicate (Z.to_nat 48011) "a good movie")
               (replicate (Z.to_nat 48011) "positive") eq_refl eq_refl) in Hsplit.
    apply Ok_pair_inv in Hsplit as [Hreviews Hsentiments].
    rewrite <- Hreviews, <- Hsentiments.
    replace (drop (Z.to_nat test_split_start) (replicate (Z.to_nat 48011) "a good movie"))
      with ToyData.many_reviews by (by vm_compute).
    replace (drop (Z.to_nat test_split_start) (replicate (Z.to_nat 48011) "positive"))
      with ToyData.many_sentiments by (by vm_compute).
    exact evaluate_returns_on_toy_rows.
Defined.
